(** * The circle trajectory of the Pegasus autopilot

    A shallow embedding of [static_trajectories/src/circle.cpp]: the
    constructor of [autopilot::Circle], which derives a rotation matrix from
    the normal of the circle's plane, and the evaluators [pd], [d_pd],
    [d2_pd], [d3_pd], [d_yaw], [vehicle_speed] and [vd].

    The C++ code computes on [double].  The embedding is written once, over
    an interface of scalar operations, and is read at two instances:

    - [Ideal]: the real numbers, with [M_PI] read as the number pi.  The
      geometric statements (distances, orthogonality, periodicity, the chain
      of derivatives) are statements of exact arithmetic and are proved here.
    - [Binary64]: IEEE 754 double precision, as specified by [SpecFloat]
      with a 53 bit mantissa.  Statements that depend on signed zeros,
      infinities, NaN or the value of a literal are proved here.

    [Circle::yaw] calls [atan2], which is kept abstract: the statements
    about the heading hold for every function in its place.  *)

From Stdlib Require Import ZArith Bool Reals Lra Lia RNsatz.
From Stdlib Require Import Floats.SpecFloat.

Set Implicit Arguments.

(** ** Scalars *)

(** The operations of [double] that the source uses.  [Arith] holds the
    arithmetic of the language, the literals of the source and what Eigen
    needs; [Libm] holds the functions of [<cmath>]. *)
Class Arith (T : Type) := {
  lit_0 : T;                    (* 0.0 and the int literal 0 *)
  lit_1 : T;                    (* 1.0 *)
  lit_2 : T;                    (* the int literal 2, converted *)
  M_PI : T;                     (* the macro M_PI *)
  lit_0_0001 : T;               (* 0.0001 *)
  lit_0_00000001 : T;           (* 0.00000001 *)
  fadd : T -> T -> T;
  fsub : T -> T -> T;
  fmul : T -> T -> T;
  fdiv : T -> T -> T;
  fneg : T -> T;
  fabs : T -> T;                (* std::abs *)
  fsqrt : T -> T;               (* std::sqrt *)
  fgt : T -> T -> bool;         (* a > b *)
  fne : T -> T -> bool;         (* a != b *)
  isfinite : T -> bool          (* std::isfinite *)
}.

Class Libm (T : Type) := {
  fsin : T -> T;                (* sin *)
  fcos : T -> T;                (* cos *)
  fpow : T -> nat -> T          (* std::pow with an integer exponent *)
}.

Declare Scope scalar_scope.
Delimit Scope scalar_scope with S.
Notation "a + b" := (fadd a b) : scalar_scope.
Notation "a - b" := (fsub a b) : scalar_scope.
Notation "a * b" := (fmul a b) : scalar_scope.
Notation "a / b" := (fdiv a b) : scalar_scope.
Notation "- a" := (fneg a) : scalar_scope.

(** ** The fragment of Eigen that the source uses *)

Record Vector3 (T : Type) := Vec3 { vx : T; vy : T; vz : T }.

(** A 3x3 matrix, given by its rows: [rotation_(i,j)] is coefficient [j] of
    row [i]. *)
Record Matrix3 (T : Type) := Mat3 { row0 : Vector3 T; row1 : Vector3 T; row2 : Vector3 T }.

Section Eigen.
Context {T : Type} {A : Arith T}.
Local Open Scope scalar_scope.

Definition vadd (a b : Vector3 T) : Vector3 T :=
  Vec3 (vx a + vx b) (vy a + vy b) (vz a + vz b).

Definition vsub (a b : Vector3 T) : Vector3 T :=
  Vec3 (vx a - vx b) (vy a - vy b) (vz a - vz b).

(** [v.array().abs()] *)
Definition cwiseAbs (a : Vector3 T) : Vector3 T :=
  Vec3 (fabs (vx a)) (fabs (vy a)) (fabs (vz a)).

(** [v / s] *)
Definition vdiv (a : Vector3 T) (s : T) : Vector3 T :=
  Vec3 (vx a / s) (vy a / s) (vz a / s).

(** Sums of three products are accumulated from left to right. *)
Definition dot (a b : Vector3 T) : T :=
  vx a * vx b + vy a * vy b + vz a * vz b.

Definition squaredNorm (a : Vector3 T) : T := dot a a.

Definition norm (a : Vector3 T) : T := fsqrt (squaredNorm a).

(** [MatrixBase::normalized] of Eigen 3.3 and later (Core/Dot.h): the
    quotient by the norm is taken under the test [z > 0], and a vector
    whose squared norm fails the test is returned as it is. *)
Definition normalized (a : Vector3 T) : Vector3 T :=
  let z := squaredNorm a in
  if fgt z lit_0 then vdiv a (fsqrt z) else a.

(** [MatrixBase::cross] for vectors of size 3. *)
Definition cross (a b : Vector3 T) : Vector3 T :=
  Vec3 (vy a * vz b - vz a * vy b)
       (vz a * vx b - vx a * vz b)
       (vx a * vy b - vy a * vx b).

(** [s * v] *)
Definition vscale (s : T) (a : Vector3 T) : Vector3 T :=
  Vec3 (s * vx a) (s * vy a) (s * vz a).

(** [M * v] *)
Definition mulMV (m : Matrix3 T) (v : Vector3 T) : Vector3 T :=
  Vec3 (dot (row0 m) v) (dot (row1 m) v) (dot (row2 m) v).

(** [Matrix3d::Identity()] *)
Definition Identity : Matrix3 T :=
  Mat3 (Vec3 lit_1 lit_0 lit_0) (Vec3 lit_0 lit_1 lit_0) (Vec3 lit_0 lit_0 lit_1).
End Eigen.

(** ** The class [Circle] *)

Record Circle (T : Type) := mkCircle {
  vehicle_speed_ : T;
  center_ : Vector3 T;
  normal_ : Vector3 T;
  radius_ : T;
  rotation_ : Matrix3 T
}.

Section CircleCode.
Context {T : Type} {A : Arith T}.
Local Open Scope scalar_scope.

(** Modelled from the spec: the value that the member [rotation_] holds
    when the body of the constructor starts.  It is set in [circle.hpp],
    which is not among the sources; the specification says that the
    constructor's else case leaves [rotation_] as the identity matrix. *)
Definition rotation_init : Matrix3 T := Identity.

Definition base_normal : Vector3 T := Vec3 lit_0 lit_0 lit_1.

(** The test of the constructor:
    [(absolute_normal - base_normal).norm() > 0.0001]. *)
Definition needs_rotation (normal : Vector3 T) : bool :=
  let absolute_normal := cwiseAbs normal in
  fgt (norm (vsub absolute_normal base_normal)) lit_0_0001.

(** [Circle::Circle(center, normal, radius, vehicle_speed)] *)
Definition Circle_Circle (center normal : Vector3 T) (radius vehicle_speed : T) : Circle T :=
  let rotation :=
    if needs_rotation normal then
      let u3 := normalized normal in
      let u1 := normalized (cross u3 base_normal) in
      let u2 := normalized (cross u3 u1) in
      Mat3 u1 u2 u3
    else rotation_init in
  mkCircle vehicle_speed center normal radius rotation.

Context {L : Libm T}.

(** [Circle::pd] *)
Definition pd (c : Circle T) (gamma : T) : Vector3 T :=
  let pd := Vec3 (radius_ c * fcos (gamma * lit_2 * M_PI))
                 (radius_ c * fsin (gamma * lit_2 * M_PI))
                 lit_0 in
  let pd := mulMV (rotation_ c) pd in
  vadd pd (center_ c).

(** [Circle::d_pd] *)
Definition d_pd (c : Circle T) (gamma : T) : Vector3 T :=
  let d_pd := Vec3 (- radius_ c * lit_2 * M_PI * fsin (gamma * lit_2 * M_PI))
                   (radius_ c * lit_2 * M_PI * fcos (gamma * lit_2 * M_PI))
                   lit_0 in
  mulMV (rotation_ c) d_pd.

(** [Circle::d2_pd] *)
Definition d2_pd (c : Circle T) (gamma : T) : Vector3 T :=
  let dd_pd := Vec3 (- radius_ c * fpow (lit_2 * M_PI) 2 * fcos (gamma * lit_2 * M_PI))
                    (- radius_ c * fpow (lit_2 * M_PI) 2 * fsin (gamma * lit_2 * M_PI))
                    lit_0 in
  mulMV (rotation_ c) dd_pd.

(** [Circle::d3_pd] *)
Definition d3_pd (c : Circle T) (gamma : T) : Vector3 T :=
  let dd_pd := Vec3 (radius_ c * fpow (lit_2 * M_PI) 3 * fsin (gamma * lit_2 * M_PI))
                    (- radius_ c * fpow (lit_2 * M_PI) 3 * fcos (gamma * lit_2 * M_PI))
                    lit_0 in
  mulMV (rotation_ c) dd_pd.

(** [Circle::d_yaw] *)
Definition d_yaw (c : Circle T) (gamma : T) : T := lit_0.

(** [Circle::vehicle_speed] *)
Definition vehicle_speed (c : Circle T) (gamma : T) : T := vehicle_speed_ c.

(** [Circle::vd].  The local [vd] starts at [0.0] and is assigned at most
    twice. *)
Definition vd (c : Circle T) (gamma : T) : T :=
  let vd := lit_0 in
  let derivative_norm := norm (d_pd c gamma) in
  let vd := if fne derivative_norm lit_0
            then vehicle_speed_ c / derivative_norm else vd in
  let vd := if negb (isfinite vd) then lit_0_00000001 else vd in
  vd.
End CircleCode.

(** ** The ideal reading: real numbers *)

Module Ideal.
Local Open Scope R_scope.

#[export] Instance R_arith : Arith R := {|
  lit_0 := 0;
  lit_1 := 1;
  lit_2 := 2;
  M_PI := PI;
  lit_0_0001 := 1 / 10000;
  lit_0_00000001 := 1 / 100000000;
  fadd := Rplus;
  fsub := Rminus;
  fmul := Rmult;
  fdiv := Rdiv;
  fneg := Ropp;
  fabs := Rabs;
  fsqrt := sqrt;
  fgt := fun a b => if Rlt_dec b a then true else false;
  fne := fun a b => if Req_dec_T a b then false else true;
  isfinite := fun _ => true
|}.

#[export] Instance R_libm : Libm R := {|
  fsin := sin;
  fcos := cos;
  fpow := pow
|}.

(** The rows of [m] are mutually orthogonal unit vectors. *)
Definition orthonormal (m : Matrix3 R) : Prop :=
  dot (row0 m) (row0 m) = 1 /\ dot (row1 m) (row1 m) = 1 /\
  dot (row2 m) (row2 m) = 1 /\ dot (row0 m) (row1 m) = 0 /\
  dot (row0 m) (row2 m) = 0 /\ dot (row1 m) (row2 m) = 0.

(** The normal lies on the axis of [base_normal]. *)
Definition on_axis (n : Vector3 R) : Prop := vx n = 0 /\ vy n = 0.

Definition zero3 : Vector3 R := Vec3 0 0 0.

Ltac reals :=
  unfold vd, pd, d_pd, d2_pd, d3_pd, mulMV, norm, squaredNorm, dot, vadd,
    vsub, vscale, vdiv, cross, cwiseAbs, base_normal, Identity, zero3 in *;
  cbn [fadd fsub fmul fdiv fneg fabs fsqrt fsin fcos fpow lit_0 lit_1 lit_2
       M_PI lit_0_0001 lit_0_00000001 R_arith R_libm
       vx vy vz row0 row1 row2 radius_ center_ rotation_ normal_
       vehicle_speed_] in *.

(** The three rows that the constructor writes when its test succeeds. *)
Definition frame (normal : Vector3 R) : Matrix3 R :=
  let u3 := normalized normal in
  let u1 := normalized (cross u3 base_normal) in
  let u2 := normalized (cross u3 u1) in
  Mat3 u1 u2 u3.

Definition col0 (m : Matrix3 R) : Vector3 R :=
  Vec3 (vx (row0 m)) (vx (row1 m)) (vx (row2 m)).

Definition col1 (m : Matrix3 R) : Vector3 R :=
  Vec3 (vy (row0 m)) (vy (row1 m)) (vy (row2 m)).

Definition e_x : Vector3 R := Vec3 1 0 0.
Definition e_z : Vector3 R := Vec3 0 0 1.
End Ideal.

(** ** The machine reading: IEEE 754 binary64 *)

Module Binary64.
Local Open Scope Z_scope.

Definition prec : Z := 53.
Definition emax : Z := 1024.

(** A [double], without the payload of a NaN. *)
Definition double : Type := spec_float.

Definition of_Z (n : Z) : double := binary_normalize prec emax n 0 false.

Definition pos_zero : double := S754_zero false.
Definition neg_zero : double := S754_zero true.
Definition pos_inf : double := S754_infinity false.

(** 1 and 2, and the doubles nearest to pi, 1/10^4 and 1/10^8, which is how
    a compiler reads [M_PI], [0.0001] and [0.00000001]. *)
Definition d_1 : double := S754_finite false 4503599627370496 (-52).
Definition d_2 : double := S754_finite false 4503599627370496 (-51).
Definition d_pi : double := S754_finite false 7074237752028440 (-51).
Definition d_1e_4 : double := S754_finite false 7378697629483821 (-66).
Definition d_1e_8 : double := S754_finite false 6044629098073146 (-79).

Definition SFisfinite (x : double) : bool :=
  match x with
  | S754_zero _ | S754_finite _ _ _ => true
  | S754_infinity _ | S754_nan => false
  end.

#[export] Instance double_arith : Arith double := {|
  lit_0 := pos_zero;
  lit_1 := d_1;
  lit_2 := d_2;
  M_PI := d_pi;
  lit_0_0001 := d_1e_4;
  lit_0_00000001 := d_1e_8;
  fadd := SFadd prec emax;
  fsub := SFsub prec emax;
  fmul := SFmul prec emax;
  fdiv := SFdiv prec emax;
  fneg := SFopp;
  fabs := SFabs;
  fsqrt := SFsqrt prec emax;
  fgt := fun a b => SFltb b a;
  fne := fun a b => negb (SFeqb a b);
  isfinite := SFisfinite
|}.

Definition is_zero (x : double) : bool :=
  match x with S754_zero _ => true | _ => false end.

Definition finite3 (v : Vector3 double) : bool :=
  SFisfinite (vx v) && SFisfinite (vy v) && SFisfinite (vz v).

Definition finite_matrix (m : Matrix3 double) : bool :=
  finite3 (row0 m) && finite3 (row1 m) && finite3 (row2 m).

Definition null3 (v : Vector3 double) : bool :=
  is_zero (vx v) && is_zero (vy v) && is_zero (vz v).

(** A [Libm] for the examples.  Annex F of the C standard fixes the sine and
    the cosine of a zero (the same zero, and 1) and of an infinity or a NaN
    (NaN); the examples use these values only.  At the other arguments,
    where the value depends on the library, this instance answers as at zero
    and is not a model of the library.  The theorems hold for every
    [Libm]. *)
Definition sin_annex_f (x : double) : double :=
  match x with
  | S754_zero _ => x
  | S754_finite _ _ _ => pos_zero
  | S754_infinity _ | S754_nan => S754_nan
  end.

Definition cos_annex_f (x : double) : double :=
  match x with
  | S754_zero _ | S754_finite _ _ _ => d_1
  | S754_infinity _ | S754_nan => S754_nan
  end.

Definition pow_repeated (x : double) (n : nat) : double :=
  Nat.iter n (fun y => SFmul prec emax y x) d_1.

Definition libm_annex_f : Libm double := {|
  fsin := sin_annex_f;
  fcos := cos_annex_f;
  fpow := pow_repeated
|}.

(** Inputs of the examples. *)
Definition origin : Vector3 double := Vec3 pos_zero pos_zero pos_zero.
Definition z_up : Vector3 double := Vec3 pos_zero pos_zero d_1.
Definition z_down : Vector3 double := Vec3 pos_zero pos_zero (SFopp d_1).
Definition z_twice : Vector3 double := Vec3 pos_zero pos_zero d_2.
(** (2^-20, 0, 1) *)
Definition z_tilted : Vector3 double :=
  Vec3 (S754_finite false 4503599627370496 (-72)) pos_zero d_1.

(** The vector that [d_pd] builds before it rotates it. *)
Definition d_pd_local {L : Libm double} (c : Circle double) (gamma : double) :
  Vector3 double :=
  Vec3 (- radius_ c * lit_2 * M_PI * fsin (gamma * lit_2 * M_PI))%S
       (radius_ c * lit_2 * M_PI * fcos (gamma * lit_2 * M_PI))%S
       lit_0.

(** The quotient [n / n.norm()], without the test of [normalized]. *)
Definition quotient_by_norm (v : Vector3 double) : Vector3 double :=
  vdiv v (norm v).
End Binary64.

(** ** The heading *)

Class Atan2 (T : Type) := {
  fatan2 : T -> T -> T          (* std::atan2 *)
}.

Section CircleYaw.
Context {T : Type} {A : Arith T} {L : Libm T} {At : Atan2 T}.

(** [Circle::yaw] *)
Definition yaw (c : Circle T) (gamma : T) : T :=
  let pd := pd c gamma in
  let center_to_pd := vsub (center_ c) pd in
  fatan2 (vy center_to_pd) (vx center_to_pd).
End CircleYaw.

(** ** Notions of the further properties *)

Module Geometry.
Import Ideal.
Local Open Scope R_scope.

(** [f'] is the derivative of [f], coefficient by coefficient. *)
Definition derivative_of (f f' : R -> Vector3 R) : Prop :=
  forall x : R,
    derivable_pt_lim (fun g => vx (f g)) x (vx (f' x)) /\
    derivable_pt_lim (fun g => vy (f g)) x (vy (f' x)) /\
    derivable_pt_lim (fun g => vz (f g)) x (vz (f' x)).

Definition col2 (m : Matrix3 R) : Vector3 R :=
  Vec3 (vz (row0 m)) (vz (row1 m)) (vz (row2 m)).

(** The length of the normal and of its part in the canonical plane. *)
Definition length (n : Vector3 R) : R :=
  sqrt (vx n * vx n + vy n * vy n + vz n * vz n).

Definition planar_length (n : Vector3 R) : R :=
  sqrt (vx n * vx n + vy n * vy n).

(** The rows of the frame, in closed form. *)
Definition frame_formula (n : Vector3 R) : Matrix3 R :=
  let N := length n in
  let S := planar_length n in
  Mat3 (Vec3 (vy n / S) (- vx n / S) 0)
       (Vec3 (vx n * vz n / (N * S)) (vy n * vz n / (N * S)) (- S / N))
       (Vec3 (vx n / N) (vy n / N) (vz n / N)).

(** The normal of the plane in which the positions lie. *)
Definition plane_normal (n : Vector3 R) : Vector3 R :=
  Vec3 0 (- planar_length n) (vz n).

(** The function [atan2] of the reals, with the values that C gives it on
    the axes and at the origin. *)
Definition atan2_real (y x : R) : R :=
  if Rlt_dec 0 x then atan (y / x)
  else if Rlt_dec x 0 then
    (if Rle_dec 0 y then atan (y / x) + PI else atan (y / x) - PI)
  else if Rlt_dec 0 y then PI / 2
  else if Rlt_dec y 0 then - (PI / 2)
  else 0.

Definition R_atan2 : Atan2 R := {| fatan2 := atan2_real |}.
End Geometry.

(** ** Library values for the machine reading *)

Module Rounded.
Import Binary64.
Local Open Scope Z_scope.

(** The doubles 2 * M_PI and 0.125 * 2 * M_PI, and the doubles nearest to
    the real sine and cosine of these two doubles, which is what a correctly
    rounded library returns: sin (2 * M_PI) is -2.4492935982947064e-16 and
    not zero, since the double 2 * M_PI is not the number 2 pi;
    sin (M_PI / 4) is 0.7071067811865475 and cos (M_PI / 4) is
    0.7071067811865476. *)
Definition d_2pi : double := S754_finite false 7074237752028440 (-50).
Definition d_pi_4 : double := S754_finite false 7074237752028440 (-53).
Definition sin_d_2pi : double := S754_finite true 4967757600021511 (-104).
Definition sin_d_pi_4 : double := S754_finite false 6369051672525772 (-53).
Definition cos_d_pi_4 : double := S754_finite false 6369051672525773 (-53).

Definition same_double (x y : double) : bool :=
  match x, y with
  | S754_zero a, S754_zero b => Bool.eqb a b
  | S754_infinity a, S754_infinity b => Bool.eqb a b
  | S754_nan, S754_nan => true
  | S754_finite a m e, S754_finite b m' e' =>
      Bool.eqb a b && Pos.eqb m m' && Z.eqb e e'
  | _, _ => false
  end.

Definition sin_rounded (x : double) : double :=
  if same_double x d_2pi then sin_d_2pi
  else if same_double x d_pi_4 then sin_d_pi_4
  else sin_annex_f x.

Definition cos_rounded (x : double) : double :=
  if same_double x d_2pi then d_1
  else if same_double x d_pi_4 then cos_d_pi_4
  else cos_annex_f x.

(** A [Libm] for the counterexamples of the machine reading: the values
    above at the two tabulated arguments and those of Annex F at zeros,
    infinities and NaN, which are the only arguments the counterexamples
    use.  The power is the rounded product; for the square and the cube of
    2 * M_PI it is the double nearest to the real power. *)
Definition libm_rounded : Libm double := {|
  fsin := sin_rounded;
  fcos := cos_rounded;
  fpow := pow_repeated
|}.

(** Inputs of the counterexamples: 5, 1/8, 2^60, 2^-665, the center
    (2^60, 0, 0) and the normal (1, 1, 0). *)
Definition d_5 : double := S754_finite false 5629499534213120 (-50).
Definition d_eighth : double := S754_finite false 4503599627370496 (-55).
Definition d_2_60 : double := S754_finite false 4503599627370496 8.
Definition d_tiny : double := S754_finite false 4503599627370496 (-717).
Definition far_center : Vector3 double := Vec3 d_2_60 pos_zero pos_zero.
Definition diagonal : Vector3 double := Vec3 d_1 d_1 pos_zero.
End Rounded.

(** * Properties in every reading *)

(** The constructor keeps the initial rotation when its test fails, in
    every reading of the scalars. *)
Lemma rotation_kept {T : Type} {A : Arith T} (center normal : Vector3 T)
  (radius speed : T) :
  needs_rotation normal = false ->
  rotation_ (Circle_Circle center normal radius speed) = Identity.
Proof. intros H. unfold Circle_Circle. rewrite H. reflexivity. Qed.

(** * Properties of the ideal reading *)

Import Ideal.
Local Open Scope R_scope.

Lemma vec3_eq (a b : Vector3 R) :
  vx a = vx b -> vy a = vy b -> vz a = vz b -> a = b.
Proof. destruct a, b; cbn; intros; subst; reflexivity. Qed.

Lemma angle_shift (gamma : R) : (gamma + 1) * 2 * PI = gamma * 2 * PI + 2 * PI.
Proof. ring. Qed.

Lemma cos_shift (gamma : R) : cos ((gamma + 1) * 2 * PI) = cos (gamma * 2 * PI).
Proof. rewrite angle_shift, cos_plus, cos_2PI, sin_2PI. ring. Qed.

Lemma sin_shift (gamma : R) : sin ((gamma + 1) * 2 * PI) = sin (gamma * 2 * PI).
Proof. rewrite angle_shift, sin_plus, cos_2PI, sin_2PI. ring. Qed.

(** *** Comparisons and normalisation over the reals *)

Lemma fgt_true (a b : R) : fgt a b = true <-> b < a.
Proof.
  cbn. destruct (Rlt_dec b a); split; intros; try assumption;
    try reflexivity; try discriminate; contradiction.
Qed.

Lemma fgt_false (a b : R) : fgt a b = false <-> a <= b.
Proof.
  cbn. destruct (Rlt_dec b a); split; intros; try reflexivity;
    try discriminate; lra.
Qed.

Lemma dot_self_nonneg (v : Vector3 R) : 0 <= dot v v.
Proof. reals. nra. Qed.

Lemma dot_self_zero (v : Vector3 R) : dot v v <= 0 -> v = zero3.
Proof.
  intros H. apply vec3_eq; reals; nra.
Qed.

Lemma normalized_pos (v : Vector3 R) :
  0 < dot v v -> normalized v = vscale (/ sqrt (dot v v)) v.
Proof.
  intros H. unfold normalized.
  replace (fgt (squaredNorm v) lit_0) with true
    by (symmetry; apply fgt_true; exact H).
  apply vec3_eq; reals; unfold Rdiv; ring.
Qed.

Lemma normalized_null (v : Vector3 R) : dot v v <= 0 -> normalized v = v.
Proof.
  intros H. unfold normalized.
  replace (fgt (squaredNorm v) lit_0) with false
    by (symmetry; apply fgt_false; exact H).
  reflexivity.
Qed.

(** Normalisation only rescales. *)
Lemma normalized_scale (v : Vector3 R) : exists k, normalized v = vscale k v.
Proof.
  destruct (Rlt_dec 0 (dot v v)) as [H | H].
  - eexists. apply normalized_pos, H.
  - exists 1. rewrite normalized_null by lra. apply vec3_eq; reals; ring.
Qed.

Lemma normalized_unit (v : Vector3 R) :
  0 < dot v v -> dot (normalized v) (normalized v) = 1.
Proof.
  intros H. rewrite (normalized_pos H).
  assert (Hs : sqrt (dot v v) * sqrt (dot v v) = dot v v)
    by (apply sqrt_sqrt; lra).
  assert (Hp : 0 < sqrt (dot v v)) by (apply sqrt_lt_R0, H).
  set (q := sqrt (dot v v)) in *.
  transitivity (dot v v * (/ q * / q)); [reals; ring |].
  rewrite <- Hs. field. lra.
Qed.

Lemma normalized_zero3 : normalized zero3 = zero3.
Proof. apply normalized_null. reals. lra. Qed.

Lemma normalized_on_axis (n : Vector3 R) : on_axis n -> on_axis (normalized n).
Proof.
  intros [Hx Hy]. destruct (normalized_scale n) as [k ->].
  split; reals; rewrite ?Hx, ?Hy; ring.
Qed.

Lemma cross_on_axis (u : Vector3 R) : on_axis u -> cross u base_normal = zero3.
Proof.
  intros [Hx Hy]. apply vec3_eq; reals; rewrite ?Hx, ?Hy; ring.
Qed.

Lemma cross_zero3_r (u : Vector3 R) : cross u zero3 = zero3.
Proof. apply vec3_eq; reals; ring. Qed.

Lemma off_axis_pos (n : Vector3 R) : ~ on_axis n -> 0 < dot n n.
Proof.
  intros H. destruct (Rlt_dec 0 (dot n n)) as [Hp | Hn]; [exact Hp |].
  exfalso. apply H. rewrite (@dot_self_zero n) by lra. split; reflexivity.
Qed.

(** *** The frame built by the constructor *)

Lemma rotation_general (center n : Vector3 R) (r s : R) :
  needs_rotation n = true -> rotation_ (Circle_Circle center n r s) = frame n.
Proof. intros H. unfold Circle_Circle. rewrite H. reflexivity. Qed.

Lemma Identity_orthonormal : orthonormal Identity.
Proof. unfold orthonormal. reals. repeat split; ring. Qed.

Lemma cross_base_pos (n : Vector3 R) :
  ~ on_axis n ->
  0 < dot (cross (normalized n) base_normal) (cross (normalized n) base_normal).
Proof.
  intros H. assert (Hn := off_axis_pos H).
  rewrite (normalized_pos Hn).
  assert (Hq : 0 < / sqrt (dot n n)) by (apply Rinv_0_lt_compat, sqrt_lt_R0, Hn).
  set (k := / sqrt (dot n n)) in *.
  assert (Hxy : 0 < vx n * vx n + vy n * vy n).
  { destruct (Req_dec_T (vx n) 0) as [Hx | Hx];
      destruct (Req_dec_T (vy n) 0) as [Hy | Hy]; try nra.
    exfalso. apply H. split; assumption. }
  reals.
  replace ((k * vy n * 1 - k * vz n * 0) * (k * vy n * 1 - k * vz n * 0) +
           (k * vz n * 0 - k * vx n * 1) * (k * vz n * 0 - k * vx n * 1) +
           (k * vx n * 0 - k * vy n * 0) * (k * vx n * 0 - k * vy n * 0))
    with (k * k * (vx n * vx n + vy n * vy n)) by ring.
  apply Rmult_lt_0_compat; [nra | exact Hxy].
Qed.

(** Lagrange's identity, for a unit vector and a unit vector orthogonal
    to it. *)
Lemma cross_unit (u w : Vector3 R) :
  dot u u = 1 -> dot w w = 1 -> dot u w = 0 -> dot (cross u w) (cross u w) = 1.
Proof.
  intros Hu Hw Huw.
  transitivity (dot u u * dot w w - dot u w * dot u w); [reals; ring |].
  rewrite Hu, Hw, Huw. ring.
Qed.

Lemma dot_cross_l (u w : Vector3 R) : dot (cross u w) u = 0.
Proof. reals. ring. Qed.

Lemma dot_cross_r (u w : Vector3 R) : dot (cross u w) w = 0.
Proof. reals. ring. Qed.

Lemma dot_vscale_l (k : R) (u w : Vector3 R) : dot (vscale k u) w = k * dot u w.
Proof. reals. ring. Qed.

Lemma dot_comm (u w : Vector3 R) : dot u w = dot w u.
Proof. reals. ring. Qed.

Lemma frame_orthonormal (n : Vector3 R) : ~ on_axis n -> orthonormal (frame n).
Proof.
  intros H. unfold frame, orthonormal.
  set (u3 := normalized n).
  assert (H3 : dot u3 u3 = 1) by (apply normalized_unit, off_axis_pos, H).
  assert (Hw := cross_base_pos H). fold u3 in Hw.
  set (w := cross u3 base_normal) in *.
  assert (H1 : dot (normalized w) (normalized w) = 1) by (apply normalized_unit, Hw).
  assert (H13 : dot (normalized w) u3 = 0).
  { destruct (normalized_scale w) as [k ->].
    rewrite dot_vscale_l. unfold w. rewrite dot_cross_l. ring. }
  set (u1 := normalized w) in *.
  assert (H31 : dot u3 u1 = 0) by (rewrite dot_comm; exact H13).
  assert (Hw2 := cross_unit H3 H1 H31).
  set (w2 := cross u3 u1) in *.
  assert (H2 : dot (normalized w2) (normalized w2) = 1)
    by (apply normalized_unit; lra).
  destruct (normalized_scale w2) as [k Hk].
  cbn [row0 row1 row2].
  repeat split; try assumption.
  - rewrite dot_comm, Hk, dot_vscale_l. unfold w2. rewrite dot_cross_r. ring.
  - rewrite Hk, dot_vscale_l. unfold w2. rewrite dot_cross_l. ring.
Qed.

Lemma frame_on_axis (n : Vector3 R) :
  on_axis n -> frame n = Mat3 zero3 zero3 (normalized n) /\ on_axis (normalized n).
Proof.
  intros H. assert (H3 := normalized_on_axis H). split; [| exact H3].
  unfold frame. rewrite (cross_on_axis H3), normalized_zero3.
  rewrite cross_zero3_r, normalized_zero3. reflexivity.
Qed.

Lemma on_axis_dec (n : Vector3 R) : {on_axis n} + {~ on_axis n}.
Proof.
  unfold on_axis.
  destruct (Req_dec_T (vx n) 0); destruct (Req_dec_T (vy n) 0);
    [left; split; assumption | right; tauto ..].
Qed.

(** What the constructor leaves in [rotation_]. *)
Lemma rotation_off_axis (center n : Vector3 R) (r s : R) :
  ~ on_axis n \/ needs_rotation n = false ->
  orthonormal (rotation_ (Circle_Circle center n r s)).
Proof.
  intros H. destruct (needs_rotation n) eqn:E.
  - rewrite rotation_general by exact E. apply frame_orthonormal.
    destruct H as [H | H]; [exact H | discriminate].
  - rewrite rotation_kept by exact E. apply Identity_orthonormal.
Qed.

(** *** Columns of the rotation and vectors of the canonical plane *)

(** The columns of a matrix with orthonormal rows are orthonormal; here
    for the two columns that meet the canonical plane. *)
Lemma orthonormal_cols (m : Matrix3 R) :
  orthonormal m ->
  dot (col0 m) (col0 m) = 1 /\ dot (col1 m) (col1 m) = 1 /\
  dot (col0 m) (col1 m) = 0.
Proof.
  destruct m as [[a b c] [d e f] [g h i]].
  unfold orthonormal, col0, col1. reals.
  intros (H0 & H1 & H2 & H01 & H02 & H12).
  repeat split; nsatz.
Qed.

Lemma planar_dot (m : Matrix3 R) (x1 y1 x2 y2 : R) :
  dot (mulMV m (Vec3 x1 y1 0)) (mulMV m (Vec3 x2 y2 0)) =
  x1 * x2 * dot (col0 m) (col0 m) + (x1 * y2 + y1 * x2) * dot (col0 m) (col1 m)
  + y1 * y2 * dot (col1 m) (col1 m).
Proof. unfold col0, col1. reals. ring. Qed.

(** The vector from the center to the position. *)
Lemma pd_radial (c : Circle R) (gamma : R) :
  vsub (pd c gamma) (center_ c) =
  mulMV (rotation_ c)
    (Vec3 (radius_ c * cos (gamma * 2 * PI)) (radius_ c * sin (gamma * 2 * PI)) 0).
Proof. apply vec3_eq; reals; ring. Qed.

Lemma d_pd_planar (c : Circle R) (gamma : R) :
  d_pd c gamma =
  mulMV (rotation_ c)
    (Vec3 (- radius_ c * 2 * PI * sin (gamma * 2 * PI))
          (radius_ c * 2 * PI * cos (gamma * 2 * PI)) 0).
Proof. reflexivity. Qed.

Lemma trig_one (x : R) : cos x * cos x + sin x * sin x = 1.
Proof. assert (H := sin2_cos2 x). unfold Rsqr in H. lra. Qed.

Lemma sqrt_square (x : R) : sqrt (x * x) = Rabs x.
Proof. apply sqrt_Rsqr_abs. Qed.

Lemma pd_distance (c : Circle R) (gamma : R) :
  orthonormal (rotation_ c) ->
  norm (vsub (pd c gamma) (center_ c)) = Rabs (radius_ c).
Proof.
  intros H. destruct (orthonormal_cols H) as (H0 & H1 & H01).
  rewrite pd_radial. unfold norm, squaredNorm.
  rewrite planar_dot, H0, H1, H01.
  cbn [fsqrt R_arith]. rewrite <- sqrt_square. f_equal.
  assert (Ht := trig_one (gamma * 2 * PI)). nra.
Qed.

Lemma d_pd_norm (c : Circle R) (gamma : R) :
  orthonormal (rotation_ c) ->
  norm (d_pd c gamma) = 2 * PI * Rabs (radius_ c).
Proof.
  intros H. destruct (orthonormal_cols H) as (H0 & H1 & H01).
  rewrite d_pd_planar. unfold norm, squaredNorm.
  rewrite planar_dot, H0, H1, H01.
  cbn [fsqrt R_arith].
  assert (Hpi := PI_RGT_0).
  replace (2 * PI * Rabs (radius_ c)) with (Rabs (2 * PI * radius_ c))
    by (rewrite Rabs_mult, (Rabs_pos_eq (2 * PI)) by lra; reflexivity).
  rewrite <- sqrt_square. f_equal.
  assert (Ht := trig_one (gamma * 2 * PI)). nra.
Qed.

(** The two columns of a constructed rotation are orthogonal and of equal
    length: of length 1 when the rows are orthonormal, and null when the
    normal is on the axis and the frame is built all the same. *)
Lemma rotation_planar (center n : Vector3 R) (r s : R) :
  let m := rotation_ (Circle_Circle center n r s) in
  dot (col0 m) (col0 m) = dot (col1 m) (col1 m) /\ dot (col0 m) (col1 m) = 0.
Proof.
  intros m. destruct (on_axis_dec n) as [Hax | Hax];
    [destruct (needs_rotation n) eqn:E |].
  - unfold m. rewrite rotation_general by exact E.
    destruct (frame_on_axis Hax) as [-> [Hx Hy]].
    unfold col0, col1. reals. rewrite Hx, Hy. split; ring.
  - assert (H : orthonormal m) by (apply rotation_off_axis; right; exact E).
    destruct (orthonormal_cols H) as (H0 & H1 & H01). split; congruence.
  - assert (H : orthonormal m) by (apply rotation_off_axis; left; exact Hax).
    destruct (orthonormal_cols H) as (H0 & H1 & H01). split; congruence.
Qed.

Lemma d_pd_radial_orthogonal (center n : Vector3 R) (r s gamma : R) :
  let c := Circle_Circle center n r s in
  dot (d_pd c gamma) (vsub (pd c gamma) (center_ c)) = 0.
Proof.
  intros c. destruct (rotation_planar center n r s) as [Heq H01].
  rewrite pd_radial, d_pd_planar. fold c in Heq, H01.
  rewrite planar_dot, H01, Heq. ring.
Qed.

(** *** Normals used in the examples *)

Lemma e_x_off_axis : ~ on_axis e_x.
Proof. intros [H _]. cbn in H. lra. Qed.

Lemma e_z_no_rotation : needs_rotation e_z = false.
Proof.
  unfold needs_rotation, e_z. apply fgt_false. reals.
  rewrite Rabs_R0, Rabs_R1.
  replace ((0 - 0) * (0 - 0) + (0 - 0) * (0 - 0) + (1 - 1) * (1 - 1)) with 0 by ring.
  rewrite sqrt_0. lra.
Qed.

Lemma zero3_needs_rotation : needs_rotation zero3 = true.
Proof.
  unfold needs_rotation. apply fgt_true. reals.
  rewrite Rabs_R0.
  replace ((0 - 0) * (0 - 0) + (0 - 0) * (0 - 0) + (0 - 1) * (0 - 1)) with 1 by ring.
  rewrite sqrt_1. lra.
Qed.

Lemma zero3_rotation (center : Vector3 R) (r s : R) :
  rotation_ (Circle_Circle center zero3 r s) = Mat3 zero3 zero3 zero3.
Proof.
  rewrite rotation_general by exact zero3_needs_rotation.
  assert (H : on_axis zero3) by (split; reflexivity).
  destruct (frame_on_axis H) as [-> _]. rewrite normalized_zero3. reflexivity.
Qed.

(** C5, as amended: in exact arithmetic, with [M_PI] read as pi, the position
    is periodic in the progress with period 1, for every circle and every
    progress value. *)
Theorem pd_periodic (c : Circle R) (gamma : R) :
  pd c (gamma + 1) = pd c gamma.
Proof.
  reals. rewrite cos_shift, sin_shift. reflexivity.
Qed.

(** C6, as amended: in exact arithmetic the second derivative is the radial
    vector from the center to the position, scaled by the negative number
    -(2 pi)^2, for every circle and every progress value. *)
Theorem d2_pd_centripetal (c : Circle R) (gamma : R) :
  d2_pd c gamma = vscale (- (2 * PI) ^ 2) (vsub (pd c gamma) (center_ c))
  /\ - (2 * PI) ^ 2 < 0.
Proof.
  split.
  - apply vec3_eq; reals; ring.
  - assert (H := PI_RGT_0). nra.
Qed.

(** C2, as amended: when the normal given to the constructor is off the
    axis of [base_normal], or passes the constructor's test of being
    (0,0,1) up to sign and tolerance, the rows of the rotation matrix are
    mutually orthogonal unit vectors. *)
Theorem rotation_orthonormal (center n : Vector3 R) (r s : R) :
  ~ on_axis n \/ needs_rotation n = false ->
  orthonormal (rotation_ (Circle_Circle center n r s)).
Proof. apply rotation_off_axis. Qed.

Lemma rotation_orthonormal_witness :
  (~ on_axis e_x \/ needs_rotation e_x = false) /\
  orthonormal (rotation_ (Circle_Circle (Vec3 1 2 3) e_x 5 2)).
Proof.
  assert (H : ~ on_axis e_x \/ needs_rotation e_x = false)
    by (left; exact e_x_off_axis).
  split; [exact H | exact (@rotation_orthonormal (Vec3 1 2 3) e_x 5 2 H)].
Defined.

(** C2, as stated, fails: a normal of length zero is accepted, and the
    rotation matrix it yields has null rows. *)
Lemma rotation_zero_normal_not_orthonormal :
  ~ orthonormal (rotation_ (Circle_Circle zero3 zero3 1 1)).
Proof.
  rewrite zero3_rotation. unfold orthonormal. reals. intros (H & _). lra.
Qed.

(** C3, as amended: in exact arithmetic, when the rotation matrix is
    orthonormal, the distance from the position to the center is the
    absolute value of the radius, at every progress value. *)
Theorem pd_on_circle (c : Circle R) (gamma : R) :
  orthonormal (rotation_ c) ->
  norm (vsub (pd c gamma) (center_ c)) = Rabs (radius_ c).
Proof. apply pd_distance. Qed.

Lemma pd_on_circle_witness :
  let c := Circle_Circle (Vec3 1 2 3) e_x 5 2 in
  orthonormal (rotation_ c) /\
  norm (vsub (pd c (1 / 4)) (center_ c)) = Rabs (radius_ c).
Proof.
  intros c.
  assert (H : orthonormal (rotation_ c))
    by (apply rotation_off_axis; left; exact e_x_off_axis).
  split; [exact H | exact (@pd_on_circle c (1 / 4) H)].
Defined.

(** For a negative radius the distance is not the radius: the rotation is
    the identity, the distance is 1 and the radius is -1. *)
Lemma pd_negative_radius_distance :
  let c := Circle_Circle zero3 e_z (-1) 1 in
  orthonormal (rotation_ c) /\
  norm (vsub (pd c 0) (center_ c)) <> radius_ c.
Proof.
  intros c.
  assert (H : orthonormal (rotation_ c))
    by (apply rotation_off_axis; right; exact e_z_no_rotation).
  split; [exact H |].
  rewrite (@pd_distance c 0 H). cbn [radius_ c Circle_Circle].
  rewrite Rabs_left by lra. lra.
Qed.

(** C7, as amended: in exact arithmetic, for every constructed circle and
    every progress value, the first derivative is orthogonal to the vector
    from the center to the position. *)
Theorem d_pd_tangent (center n : Vector3 R) (r s gamma : R) :
  let c := Circle_Circle center n r s in
  dot (d_pd c gamma) (vsub (pd c gamma) (center_ c)) = 0.
Proof. apply d_pd_radial_orthogonal. Qed.

(** C8, as amended: in exact arithmetic, when the rotation matrix is
    orthonormal, the norm of the first derivative is 2 pi times the absolute
    value of the radius, at every progress value. *)
Theorem d_pd_constant_norm (c : Circle R) (gamma : R) :
  orthonormal (rotation_ c) ->
  norm (d_pd c gamma) = 2 * PI * Rabs (radius_ c).
Proof. apply d_pd_norm. Qed.

Lemma d_pd_constant_norm_witness :
  let c := Circle_Circle zero3 e_z 5 2 in
  orthonormal (rotation_ c) /\ norm (d_pd c 0) = 2 * PI * Rabs (radius_ c).
Proof.
  intros c.
  assert (H : orthonormal (rotation_ c))
    by (apply rotation_off_axis; right; exact e_z_no_rotation).
  split; [exact H | exact (@d_pd_constant_norm c 0 H)].
Defined.

(** The norm is not 2 pi r in two cases: for the radius -1 the norm is not
    the negative number 2 pi (-1), and for a normal of length zero the first
    derivative is null whatever the radius. *)
Lemma d_pd_norm_not_2_pi_r :
  norm (d_pd (Circle_Circle zero3 e_z (-1) 1) 0) <> 2 * PI * (-1) /\
  norm (d_pd (Circle_Circle zero3 zero3 1 1) 0) <> 2 * PI * 1.
Proof.
  assert (Hpi := PI_RGT_0). split.
  - assert (H : orthonormal (rotation_ (Circle_Circle zero3 e_z (-1) 1)))
      by (apply rotation_off_axis; right; exact e_z_no_rotation).
    rewrite (@d_pd_norm _ 0 H). cbn [radius_ Circle_Circle].
    rewrite Rabs_left by lra. lra.
  - rewrite d_pd_planar, zero3_rotation. unfold norm, squaredNorm.
    rewrite planar_dot. unfold col0, col1. reals.
    match goal with |- sqrt ?e <> _ => replace e with 0 by ring end.
    rewrite sqrt_0. lra.
Qed.

(** C9, as amended: in exact arithmetic the third derivative is the first
    derivative scaled by -(2 pi)^2, for every circle; and on every
    constructed circle the third derivative is orthogonal to the second. *)
Theorem d3_pd_chain (center n : Vector3 R) (r s gamma : R) :
  let c := Circle_Circle center n r s in
  d3_pd c gamma = vscale (- (2 * PI) ^ 2) (d_pd c gamma) /\
  dot (d3_pd c gamma) (d2_pd c gamma) = 0.
Proof.
  intros c. split.
  - apply vec3_eq; reals; ring.
  - destruct (rotation_planar center n r s) as [Heq H01]. fold c in Heq, H01.
    unfold d3_pd, d2_pd. cbn [fadd fsub fmul fneg fsin fcos fpow lit_0 lit_2
      M_PI R_arith R_libm].
    rewrite planar_dot, H01, Heq. ring.
Qed.

(** * Properties of the machine reading *)

Import Binary64.

(** The literals are the correctly rounded quotients. *)
Example d_1e_4_rounded : SFdiv prec emax (of_Z 1) (of_Z 10000) = d_1e_4.
Proof. vm_compute. reflexivity. Qed.

Example d_1e_8_rounded : SFdiv prec emax (of_Z 1) (of_Z 100000000) = d_1e_8.
Proof. vm_compute. reflexivity. Qed.

Example d_1_d_2_exact : of_Z 1 = d_1 /\ of_Z 2 = d_2.
Proof. vm_compute. split; reflexivity. Qed.

Section Machine.
Context {L : Libm double}.
Local Open Scope scalar_scope.

(** *** Signed zeros *)

Lemma zero_finite (a : double) : is_zero a = true -> SFisfinite a = true.
Proof. destruct a; cbn; intros; try discriminate; reflexivity. Qed.

Lemma mul_zero_finite (a b : double) :
  is_zero a = true -> SFisfinite b = true -> is_zero (a * b) = true.
Proof. destruct a, b; cbn; intros; try discriminate; reflexivity. Qed.

Lemma mul_finite_zero (a b : double) :
  SFisfinite a = true -> is_zero b = true -> is_zero (a * b) = true.
Proof. destruct a, b; cbn; intros; try discriminate; reflexivity. Qed.

Lemma add_zero_zero (a b : double) :
  is_zero a = true -> is_zero b = true -> is_zero (a + b) = true.
Proof.
  destruct a as [[|]| | |], b as [[|]| | |]; cbn; intros; try discriminate;
    reflexivity.
Qed.

Lemma neg_zero_zero (a : double) : is_zero a = true -> is_zero (- a) = true.
Proof. destruct a; cbn; intros; try discriminate; reflexivity. Qed.

Lemma sqrt_zero_zero (a : double) : is_zero a = true -> is_zero (fsqrt a) = true.
Proof. destruct a; cbn; intros; try discriminate; reflexivity. Qed.

Lemma zero_not_ne (a : double) : is_zero a = true -> fne a lit_0 = false.
Proof. destruct a; cbn; intros; try discriminate; reflexivity. Qed.

Lemma finite3_inv (v : Vector3 double) :
  finite3 v = true ->
  SFisfinite (vx v) = true /\ SFisfinite (vy v) = true /\ SFisfinite (vz v) = true.
Proof.
  unfold finite3. rewrite !andb_true_iff. tauto.
Qed.

Lemma null3_inv (v : Vector3 double) :
  null3 v = true ->
  is_zero (vx v) = true /\ is_zero (vy v) = true /\ is_zero (vz v) = true.
Proof.
  unfold null3. rewrite !andb_true_iff. tauto.
Qed.

Lemma dot_finite_null (r v : Vector3 double) :
  finite3 r = true -> null3 v = true -> is_zero (dot r v) = true.
Proof.
  intros Hr Hv.
  destruct (finite3_inv _ Hr) as (Hx & Hy & Hz).
  destruct (null3_inv _ Hv) as (Zx & Zy & Zz).
  unfold dot. repeat apply add_zero_zero; apply mul_finite_zero; assumption.
Qed.

Lemma mulMV_finite_null (m : Matrix3 double) (v : Vector3 double) :
  finite_matrix m = true -> null3 v = true -> null3 (mulMV m v) = true.
Proof.
  unfold finite_matrix. rewrite !andb_true_iff. intros [[H0 H1] H2] Hv.
  unfold null3, mulMV. cbn [vx vy vz].
  rewrite !dot_finite_null by assumption. reflexivity.
Qed.

Lemma norm_null (v : Vector3 double) : null3 v = true -> is_zero (norm v) = true.
Proof.
  intros Hv. destruct (null3_inv _ Hv) as (Zx & Zy & Zz).
  unfold norm, squaredNorm, dot. apply sqrt_zero_zero.
  repeat apply add_zero_zero; apply mul_zero_finite;
    try assumption; apply zero_finite; assumption.
Qed.

(** *** NaN *)

Lemma mul_nan_r (a : double) : a * S754_nan = S754_nan.
Proof. destruct a; reflexivity. Qed.

Lemma add_nan_l (b : double) : S754_nan + b = S754_nan.
Proof. destruct b; reflexivity. Qed.

Lemma add_nan_r (a : double) : a + S754_nan = S754_nan.
Proof. destruct a; reflexivity. Qed.

Lemma div_nan_r (a : double) : a / S754_nan = S754_nan.
Proof. destruct a; reflexivity. Qed.

Lemma dot_nan_x (r v : Vector3 double) : vx v = S754_nan -> dot r v = S754_nan.
Proof.
  intros H. unfold dot. rewrite H, mul_nan_r, !add_nan_l. reflexivity.
Qed.

Lemma dot_nan_y (r v : Vector3 double) : vy v = S754_nan -> dot r v = S754_nan.
Proof.
  intros H. unfold dot. rewrite H, mul_nan_r, add_nan_r, add_nan_l. reflexivity.
Qed.

Lemma norm_mulMV_nan (m : Matrix3 double) (v : Vector3 double) :
  vx v = S754_nan \/ vy v = S754_nan -> norm (mulMV m v) = S754_nan.
Proof.
  intros H. unfold norm, squaredNorm.
  assert (Hx : vx (mulMV m v) = S754_nan)
    by (unfold mulMV; cbn [vx]; destruct H; [apply dot_nan_x | apply dot_nan_y]; assumption).
  rewrite (dot_nan_x _ _ Hx). reflexivity.
Qed.

(** *** [vd] on a circle of radius zero *)

Lemma d_pd_local_null (c : Circle double) (gamma : double) :
  is_zero (radius_ c) = true ->
  SFisfinite (fsin (gamma * lit_2 * M_PI)) = true ->
  SFisfinite (fcos (gamma * lit_2 * M_PI)) = true ->
  null3 (d_pd_local c gamma) = true.
Proof.
  intros Hr Hs Hc. unfold null3, d_pd_local. cbn [vx vy vz].
  assert (H1 : is_zero (- radius_ c * lit_2 * M_PI) = true)
    by (repeat apply mul_zero_finite; try reflexivity;
        apply neg_zero_zero; exact Hr).
  assert (H2 : is_zero (radius_ c * lit_2 * M_PI) = true)
    by (repeat apply mul_zero_finite; try reflexivity; exact Hr).
  rewrite (mul_zero_finite _ _ H1 Hs), (mul_zero_finite _ _ H2 Hc).
  reflexivity.
Qed.

Lemma vd_null_derivative (c : Circle double) (gamma : double) :
  is_zero (norm (d_pd c gamma)) = true -> vd c gamma = pos_zero.
Proof.
  intros H. unfold vd. rewrite (zero_not_ne _ H). reflexivity.
Qed.

Lemma vd_nan_derivative (c : Circle double) (gamma : double) :
  norm (d_pd c gamma) = S754_nan -> vd c gamma = d_1e_8.
Proof.
  intros H. unfold vd. rewrite H. cbn [fne double_arith SFeqb SFcompare negb lit_0 pos_zero].
  rewrite div_nan_r. reflexivity.
Qed.

Lemma vd_radius_zero_finite (c : Circle double) (gamma : double) :
  is_zero (radius_ c) = true ->
  finite_matrix (rotation_ c) = true ->
  SFisfinite (fsin (gamma * lit_2 * M_PI)) = true ->
  SFisfinite (fcos (gamma * lit_2 * M_PI)) = true ->
  vd c gamma = pos_zero.
Proof.
  intros Hr Hm Hs Hc. apply vd_null_derivative.
  change (d_pd c gamma) with (mulMV (rotation_ c) (d_pd_local c gamma)).
  apply norm_null, mulMV_finite_null; [exact Hm |].
  apply d_pd_local_null; assumption.
Qed.

Lemma vd_trig_nan (c : Circle double) (gamma : double) :
  fsin (gamma * lit_2 * M_PI) = S754_nan \/ fcos (gamma * lit_2 * M_PI) = S754_nan ->
  vd c gamma = d_1e_8.
Proof.
  intros H. apply vd_nan_derivative.
  change (d_pd c gamma) with (mulMV (rotation_ c) (d_pd_local c gamma)).
  apply norm_mulMV_nan. unfold d_pd_local. cbn [vx vy].
  destruct H as [H | H]; rewrite H, mul_nan_r; [left | right]; reflexivity.
Qed.
End Machine.

(** C1, as amended: on a circle of radius zero whose rotation matrix has
    finite entries, [vd] returns 0.0 at every progress value where the sine
    and the cosine are finite: the norm of the derivative is zero, the test
    [derivative_norm != 0] skips the division, and 0.0 is finite.  The
    fallback 0.00000001 is returned where the sine or the cosine is NaN. *)
Theorem vd_zero_radius {L : Libm double} (c : Circle double) (gamma : double) :
  is_zero (radius_ c) = true ->
  (finite_matrix (rotation_ c) = true ->
   SFisfinite (fsin (gamma * lit_2 * M_PI)%S) = true ->
   SFisfinite (fcos (gamma * lit_2 * M_PI)%S) = true ->
   vd c gamma = pos_zero) /\
  (fsin (gamma * lit_2 * M_PI)%S = S754_nan \/
   fcos (gamma * lit_2 * M_PI)%S = S754_nan ->
   vd c gamma = lit_0_00000001).
Proof.
  intros Hr. split.
  - apply vd_radius_zero_finite. exact Hr.
  - apply vd_trig_nan.
Qed.

Lemma vd_zero_radius_witness :
  let c := Circle_Circle origin z_up pos_zero d_2 in
  is_zero (radius_ c) = true /\
  @vd _ _ libm_annex_f c pos_zero = pos_zero /\
  @vd _ _ libm_annex_f c pos_inf = lit_0_00000001.
Proof.
  intros c. split; [reflexivity |]. split.
  - apply (proj1 (@vd_zero_radius libm_annex_f c pos_zero eq_refl));
      reflexivity.
  - apply (proj2 (@vd_zero_radius libm_annex_f c pos_inf eq_refl)).
    left. reflexivity.
Defined.

(** C1, as stated, fails: with the radius 0.0, the normal (0,0,1) and the
    progress 0.0, where sin is 0.0 and cos is 1, [vd] returns 0.0 and not
    0.00000001. *)
Lemma vd_zero_radius_not_fallback :
  let c := Circle_Circle origin z_up pos_zero d_2 in
  radius_ c = pos_zero /\
  @vd _ _ libm_annex_f c pos_zero = pos_zero /\
  @vd _ _ libm_annex_f c pos_zero <> lit_0_00000001.
Proof.
  intros c. split; [reflexivity |]. split.
  - vm_compute. reflexivity.
  - vm_compute. discriminate.
Qed.

(** C4: the rotation matrix is the identity when the normal is (0,0,1) or
    (0,0,-1), and whenever the normal fails the constructor's test, that is,
    whenever the norm of its elementwise absolute value minus (0,0,1) is not
    above 0.0001. *)
Theorem rotation_identity (center : Vector3 double) (radius speed : double) :
  rotation_ (Circle_Circle center z_up radius speed) = Identity /\
  rotation_ (Circle_Circle center z_down radius speed) = Identity /\
  (forall normal : Vector3 double,
     needs_rotation normal = false ->
     rotation_ (Circle_Circle center normal radius speed) = Identity).
Proof.
  split; [| split].
  - apply rotation_kept. vm_compute. reflexivity.
  - apply rotation_kept. vm_compute. reflexivity.
  - intros normal. apply rotation_kept.
Qed.

Lemma rotation_identity_witness :
  needs_rotation z_tilted = false /\
  rotation_ (Circle_Circle origin z_tilted d_1 d_2) = Identity.
Proof.
  split.
  - vm_compute. reflexivity.
  - apply (proj2 (proj2 (rotation_identity origin d_1 d_2))).
    vm_compute. reflexivity.
Defined.

(** C10, as amended: the normal (0,0,2) passes the constructor's test, so
    the frame is built; the cross product of the normalised normal with
    (0,0,1) is null, [normalized] returns a null vector as it is, and the
    rotation matrix has two null rows above (0,0,1): its entries are finite
    and its rows are not orthonormal. *)
Theorem rotation_z_twice (center : Vector3 double) (radius speed : double) :
  needs_rotation z_twice = true /\
  cross (normalized z_twice) base_normal = origin /\
  rotation_ (Circle_Circle center z_twice radius speed) = Mat3 origin origin z_up.
Proof.
  repeat split; vm_compute; reflexivity.
Qed.

(** C10, as stated, fails: for the normal (0,0,2) every entry of the
    rotation matrix is finite. *)
Lemma rotation_z_twice_finite :
  needs_rotation z_twice = true /\
  finite_matrix (rotation_ (Circle_Circle origin z_twice d_1 d_2)) = true.
Proof. split; vm_compute; reflexivity. Qed.

(** Where NaN would come from: the quotient of the null cross product by its
    norm, which [normalized] does not take. *)
Remark quotient_by_norm_nan :
  quotient_by_norm (cross (normalized z_twice) base_normal) =
  Vec3 S754_nan S754_nan S754_nan.
Proof. vm_compute. reflexivity. Qed.

(** * Further properties of the ideal reading *)

Import Geometry.

(** *** The chain of derivatives *)

Lemma derivable_pt_lim_eq (f g : R -> R) (x l l' : R) :
  (forall y, f y = g y) -> l = l' ->
  derivable_pt_lim f x l -> derivable_pt_lim g x l'.
Proof.
  intros Hfg <- H eps Heps. destruct (H eps Heps) as [d Hd].
  exists d. intros h Hh Hd'. rewrite <- !Hfg. apply Hd; assumption.
Qed.

Lemma trig_combination_derivative (P Q K x : R) :
  derivable_pt_lim
    (fun g => P * cos (g * 2 * PI) + Q * sin (g * 2 * PI) + K) x
    (Q * (2 * PI) * cos (x * 2 * PI) - P * (2 * PI) * sin (x * 2 * PI)).
Proof.
  set (theta := mult_real_fct (2 * PI) id).
  assert (Ht : derivable_pt_lim theta x (2 * PI * 1))
    by (apply derivable_pt_lim_scal, derivable_pt_lim_id).
  assert (Hc : derivable_pt_lim (comp cos theta) x (- sin (theta x) * (2 * PI * 1)))
    by (apply derivable_pt_lim_comp; [exact Ht | apply derivable_pt_lim_cos]).
  assert (Hs : derivable_pt_lim (comp sin theta) x (cos (theta x) * (2 * PI * 1)))
    by (apply derivable_pt_lim_comp; [exact Ht | apply derivable_pt_lim_sin]).
  assert (Hall := derivable_pt_lim_plus _ _ _ _ _
            (derivable_pt_lim_plus _ _ _ _ _
               (derivable_pt_lim_scal _ P _ _ Hc)
               (derivable_pt_lim_scal _ Q _ _ Hs))
            (derivable_pt_lim_const K x)).
  refine (derivable_pt_lim_eq _ _ _ Hall).
  - intros y. unfold theta, plus_fct, comp, fct_cte.
    unfold mult_real_fct, id.
    replace (2 * PI * y) with (y * 2 * PI) by ring. reflexivity.
  - unfold theta, mult_real_fct, id.
    replace (2 * PI * x) with (x * 2 * PI) by ring. ring.
Qed.

(** A coefficient of a rotated vector of the canonical plane, moved by [K],
    as a function of the progress. *)
Lemma rotated_derivative (rho : Vector3 R) (a b c d K x : R) :
  derivable_pt_lim
    (fun g => dot rho (Vec3 (a * cos (g * 2 * PI) + b * sin (g * 2 * PI))
                            (c * cos (g * 2 * PI) + d * sin (g * 2 * PI)) 0) + K) x
    (dot rho (Vec3 (b * (2 * PI) * cos (x * 2 * PI) - a * (2 * PI) * sin (x * 2 * PI))
                   (d * (2 * PI) * cos (x * 2 * PI) - c * (2 * PI) * sin (x * 2 * PI)) 0)).
Proof.
  refine (derivable_pt_lim_eq _ _ _
    (trig_combination_derivative (vx rho * a + vy rho * c) (vx rho * b + vy rho * d) K x)).
  - intros y. reals. ring.
  - reals. ring.
Qed.

(** X1: [d_pd] is the derivative of [pd] with respect to the progress, for
    every circle. *)
Theorem d_pd_is_derivative (c : Circle R) : derivative_of (pd c) (d_pd c).
Proof.
  intros x. destruct c as [s ctr n r [r0 r1 r2]].
  repeat split.
  - refine (derivable_pt_lim_eq _ _ _ (rotated_derivative r0 r 0 0 r (vx ctr) x));
      [intros y |]; reals; ring.
  - refine (derivable_pt_lim_eq _ _ _ (rotated_derivative r1 r 0 0 r (vy ctr) x));
      [intros y |]; reals; ring.
  - refine (derivable_pt_lim_eq _ _ _ (rotated_derivative r2 r 0 0 r (vz ctr) x));
      [intros y |]; reals; ring.
Qed.

(** X2: [d2_pd] is the derivative of [d_pd], for every circle. *)
Theorem d2_pd_is_derivative (c : Circle R) : derivative_of (d_pd c) (d2_pd c).
Proof.
  intros x. destruct c as [s ctr n r [r0 r1 r2]].
  repeat split.
  - refine (derivable_pt_lim_eq _ _ _
      (rotated_derivative r0 0 (- r * 2 * PI) (r * 2 * PI) 0 0 x));
      [intros y |]; reals; ring.
  - refine (derivable_pt_lim_eq _ _ _
      (rotated_derivative r1 0 (- r * 2 * PI) (r * 2 * PI) 0 0 x));
      [intros y |]; reals; ring.
  - refine (derivable_pt_lim_eq _ _ _
      (rotated_derivative r2 0 (- r * 2 * PI) (r * 2 * PI) 0 0 x));
      [intros y |]; reals; ring.
Qed.

(** X3: [d3_pd] is the derivative of [d2_pd], for every circle. *)
Theorem d3_pd_is_derivative (c : Circle R) : derivative_of (d2_pd c) (d3_pd c).
Proof.
  intros x. destruct c as [s ctr n r [r0 r1 r2]].
  repeat split.
  - refine (derivable_pt_lim_eq _ _ _
      (rotated_derivative r0 (- r * (2 * PI) ^ 2) 0 0 (- r * (2 * PI) ^ 2) 0 x));
      [intros y |]; reals; ring.
  - refine (derivable_pt_lim_eq _ _ _
      (rotated_derivative r1 (- r * (2 * PI) ^ 2) 0 0 (- r * (2 * PI) ^ 2) 0 x));
      [intros y |]; reals; ring.
  - refine (derivable_pt_lim_eq _ _ _
      (rotated_derivative r2 (- r * (2 * PI) ^ 2) 0 0 (- r * (2 * PI) ^ 2) 0 x));
      [intros y |]; reals; ring.
Qed.

(** *** Symmetries of the evaluators *)

Lemma half_turn (gamma : R) : (gamma + 1 / 2) * 2 * PI = gamma * 2 * PI + PI.
Proof. field. Qed.

Lemma cos_half_turn (gamma : R) :
  cos ((gamma + 1 / 2) * 2 * PI) = - cos (gamma * 2 * PI).
Proof. rewrite half_turn. apply neg_cos. Qed.

Lemma sin_half_turn (gamma : R) :
  sin ((gamma + 1 / 2) * 2 * PI) = - sin (gamma * 2 * PI).
Proof. rewrite half_turn. apply neg_sin. Qed.

(** X4: the three derivatives are periodic in the progress with period 1,
    for every circle. *)
Theorem derivatives_periodic (c : Circle R) (gamma : R) :
  d_pd c (gamma + 1) = d_pd c gamma /\
  d2_pd c (gamma + 1) = d2_pd c gamma /\
  d3_pd c (gamma + 1) = d3_pd c gamma.
Proof.
  repeat split; reals; rewrite cos_shift, sin_shift; reflexivity.
Qed.

(** X5: half a unit of progress later the position is the opposite point of
    the circle: the vector from the center changes sign. *)
Theorem pd_half_turn (c : Circle R) (gamma : R) :
  vsub (pd c (gamma + 1 / 2)) (center_ c) =
  vscale (-1) (vsub (pd c gamma) (center_ c)).
Proof.
  apply vec3_eq; reals; rewrite cos_half_turn, sin_half_turn; ring.
Qed.

(** X6: a negative radius is accepted and gives the same circle, run half a
    unit of progress ahead. *)
Theorem pd_negative_radius (center n : Vector3 R) (r s gamma : R) :
  pd (Circle_Circle center n (- r) s) gamma =
  pd (Circle_Circle center n r s) (gamma + 1 / 2).
Proof.
  unfold pd. cbn [radius_ rotation_ center_ Circle_Circle].
  rewrite cos_half_turn, sin_half_turn. f_equal. f_equal.
  apply vec3_eq; reals; ring.
Qed.

Lemma d2_pd_planar (c : Circle R) (gamma : R) :
  d2_pd c gamma =
  mulMV (rotation_ c)
    (Vec3 (- radius_ c * (2 * PI) ^ 2 * cos (gamma * 2 * PI))
          (- radius_ c * (2 * PI) ^ 2 * sin (gamma * 2 * PI)) 0).
Proof. reflexivity. Qed.

Lemma d3_pd_planar (c : Circle R) (gamma : R) :
  d3_pd c gamma =
  mulMV (rotation_ c)
    (Vec3 (radius_ c * (2 * PI) ^ 3 * sin (gamma * 2 * PI))
          (- radius_ c * (2 * PI) ^ 3 * cos (gamma * 2 * PI)) 0).
Proof. reflexivity. Qed.

Lemma Rabs_scaled (k x : R) : 0 <= k -> Rabs (k * x) = k * Rabs x.
Proof. intros H. rewrite Rabs_mult, (Rabs_pos_eq k) by exact H. reflexivity. Qed.

(** X7: when the rotation matrix is orthonormal, the second and the third
    derivative have the constant norms (2 pi)^2 |r| and (2 pi)^3 |r|. *)
Theorem higher_derivative_norms (c : Circle R) (gamma : R) :
  orthonormal (rotation_ c) ->
  norm (d2_pd c gamma) = (2 * PI) ^ 2 * Rabs (radius_ c) /\
  norm (d3_pd c gamma) = (2 * PI) ^ 3 * Rabs (radius_ c).
Proof.
  intros H. destruct (orthonormal_cols H) as (H0 & H1 & H01).
  assert (Hpi := PI_RGT_0).
  assert (Ht := trig_one (gamma * 2 * PI)).
  split.
  - rewrite d2_pd_planar. unfold norm, squaredNorm.
    rewrite planar_dot, H0, H1, H01. cbn [fsqrt R_arith].
    rewrite <- Rabs_scaled by nra. rewrite <- sqrt_square. f_equal. nra.
  - rewrite d3_pd_planar. unfold norm, squaredNorm.
    rewrite planar_dot, H0, H1, H01. cbn [fsqrt R_arith].
    rewrite <- Rabs_scaled by (apply pow_le; lra).
    rewrite <- sqrt_square. f_equal. nra.
Qed.

Lemma higher_derivative_norms_witness :
  let c := Circle_Circle zero3 e_x 5 2 in
  orthonormal (rotation_ c) /\
  norm (d2_pd c 0) = (2 * PI) ^ 2 * Rabs (radius_ c) /\
  norm (d3_pd c 0) = (2 * PI) ^ 3 * Rabs (radius_ c).
Proof.
  intros c.
  assert (H : orthonormal (rotation_ c))
    by (apply rotation_off_axis; left; exact e_x_off_axis).
  split; [exact H | exact (@higher_derivative_norms c 0 H)].
Defined.

(** *** The progress rate *)

Lemma vd_quotient (c : Circle R) (gamma : R) :
  norm (d_pd c gamma) <> 0 ->
  vd c gamma = vehicle_speed_ c / norm (d_pd c gamma).
Proof.
  intros H. unfold vd. cbn [fne isfinite fdiv lit_0 R_arith negb].
  destruct (Req_dec_T (norm (d_pd c gamma)) 0) as [E | E];
    [contradiction | reflexivity].
Qed.

(** X8: on a circle with an orthonormal rotation matrix and a radius other
    than zero, [vd] is the vehicle speed divided by 2 pi |r|, the same at
    every progress value, and [vd] times the norm of [d_pd] gives the vehicle
    speed back. *)
Theorem vd_constant (c : Circle R) (gamma : R) :
  orthonormal (rotation_ c) -> radius_ c <> 0 ->
  vd c gamma = vehicle_speed_ c / (2 * PI * Rabs (radius_ c)) /\
  vd c gamma * norm (d_pd c gamma) = vehicle_speed c gamma.
Proof.
  intros H Hr. assert (Hpi := PI_RGT_0).
  assert (Ha : 0 < Rabs (radius_ c)) by (apply Rabs_pos_lt, Hr).
  assert (Hn : norm (d_pd c gamma) <> 0) by (rewrite (@d_pd_norm c gamma H); nra).
  rewrite (@vd_quotient c gamma Hn). split.
  - rewrite (@d_pd_norm c gamma H). reflexivity.
  - unfold vehicle_speed. field. exact Hn.
Qed.

Lemma vd_constant_witness :
  let c := Circle_Circle zero3 e_x 5 2 in
  orthonormal (rotation_ c) /\ radius_ c <> 0 /\
  vd c 0 = vehicle_speed_ c / (2 * PI * Rabs (radius_ c)) /\
  vd c 0 * norm (d_pd c 0) = vehicle_speed c 0.
Proof.
  intros c.
  assert (H : orthonormal (rotation_ c))
    by (apply rotation_off_axis; left; exact e_x_off_axis).
  assert (Hr : radius_ c <> 0) by (cbn; lra).
  split; [exact H |]. split; [exact Hr | exact (@vd_constant c 0 H Hr)].
Defined.

(** *** The canonical plane *)

(** X9: when the normal fails the constructor's test (it is (0,0,1) up to
    sign and tolerance), the position is the center moved by
    (r cos, r sin, 0) and the first derivative is 2 pi r (-sin, cos, 0):
    the circle is in the plane z = center.z. *)
Theorem pd_unrotated (center n : Vector3 R) (r s gamma : R) :
  needs_rotation n = false ->
  let c := Circle_Circle center n r s in
  pd c gamma = Vec3 (r * cos (gamma * 2 * PI) + vx center)
                    (r * sin (gamma * 2 * PI) + vy center)
                    (vz center) /\
  d_pd c gamma = Vec3 (- (2 * PI * r * sin (gamma * 2 * PI)))
                      (2 * PI * r * cos (gamma * 2 * PI)) 0.
Proof.
  intros H c.
  assert (Hrot : rotation_ c = Identity) by (apply rotation_kept, H).
  split.
  - unfold pd. rewrite Hrot. subst c. cbn [radius_ center_ Circle_Circle].
    apply vec3_eq; reals; ring.
  - unfold d_pd. rewrite Hrot. subst c. cbn [radius_ center_ Circle_Circle].
    apply vec3_eq; reals; ring.
Qed.

Lemma pd_unrotated_witness :
  needs_rotation e_z = false /\
  pd (Circle_Circle zero3 e_z 5 2) 0 =
    Vec3 (5 * cos (0 * 2 * PI) + vx zero3) (5 * sin (0 * 2 * PI) + vy zero3)
         (vz zero3).
Proof.
  split; [exact e_z_no_rotation |].
  exact (proj1 (@pd_unrotated zero3 e_z 5 2 0 e_z_no_rotation)).
Defined.

(** *** The heading *)

Section Heading.
Context {At : Atan2 R}.

(** X10: the heading is periodic in the progress with period 1, whatever the
    function in the place of [atan2]. *)
Theorem yaw_periodic (c : Circle R) (gamma : R) :
  yaw c (gamma + 1) = yaw c gamma.
Proof.
  unfold yaw, pd. cbn [fmul lit_2 M_PI fcos fsin R_arith R_libm].
  rewrite cos_shift, sin_shift. reflexivity.
Qed.

(** X11: the heading does not depend on the center: it is [atan2] of the
    opposite of the rotated canonical vector. *)
Theorem yaw_center_free (center center' n : Vector3 R) (r s gamma : R) :
  yaw (Circle_Circle center n r s) gamma =
  yaw (Circle_Circle center' n r s) gamma.
Proof.
  unfold yaw, pd. cbn [radius_ rotation_ center_ Circle_Circle].
  f_equal; reals; ring.
Qed.

(** X12: when the normal fails the constructor's test, the heading is
    [atan2 (- r sin) (- r cos)]: the direction from the position to the
    center. *)
Theorem yaw_unrotated (center n : Vector3 R) (r s gamma : R) :
  needs_rotation n = false ->
  yaw (Circle_Circle center n r s) gamma =
  fatan2 (- (r * sin (gamma * 2 * PI))) (- (r * cos (gamma * 2 * PI))).
Proof.
  intros H. unfold yaw, pd.
  rewrite (rotation_kept center n r s H).
  cbn [radius_ center_ Circle_Circle]. f_equal; reals; ring.
Qed.
End Heading.

Lemma yaw_unrotated_witness :
  needs_rotation e_z = false /\
  yaw (At := R_atan2) (Circle_Circle zero3 e_z 5 2) 0 =
  atan2_real (- (5 * sin (0 * 2 * PI))) (- (5 * cos (0 * 2 * PI))).
Proof.
  split; [exact e_z_no_rotation |].
  exact (@yaw_unrotated R_atan2 zero3 e_z 5 2 0 e_z_no_rotation).
Defined.

(** *** The frame in closed form *)

Lemma length_square (n : Vector3 R) : length n * length n = dot n n.
Proof. unfold length. apply sqrt_sqrt. apply (dot_self_nonneg n). Qed.

Lemma length_pos (n : Vector3 R) : ~ on_axis n -> 0 < length n.
Proof. intros H. apply sqrt_lt_R0. apply (off_axis_pos H). Qed.

Lemma planar_square (n : Vector3 R) :
  planar_length n * planar_length n = vx n * vx n + vy n * vy n.
Proof. unfold planar_length. apply sqrt_sqrt. nra. Qed.

Lemma planar_pos (n : Vector3 R) : ~ on_axis n -> 0 < planar_length n.
Proof.
  intros H. apply sqrt_lt_R0.
  destruct (Req_dec_T (vx n) 0) as [Hx | Hx];
    destruct (Req_dec_T (vy n) 0) as [Hy | Hy]; try nra.
  exfalso. apply H. split; assumption.
Qed.

Lemma sqrt_of_square (y : R) : 0 <= y -> sqrt (y * y) = y.
Proof. intros H. rewrite sqrt_square. apply Rabs_pos_eq, H. Qed.

Lemma normalized_of_unit (v : Vector3 R) : dot v v = 1 -> normalized v = v.
Proof.
  intros H. rewrite normalized_pos by lra. rewrite H, sqrt_1.
  apply vec3_eq; reals; field.
Qed.

Lemma normalized_off_axis (n : Vector3 R) :
  ~ on_axis n ->
  normalized n = Vec3 (vx n / length n) (vy n / length n) (vz n / length n).
Proof.
  intros H. assert (HN := length_pos H).
  rewrite (normalized_pos (off_axis_pos H)).
  apply vec3_eq; reals; unfold length; field; apply Rgt_not_eq, HN.
Qed.

Lemma frame_closed_form (n : Vector3 R) : ~ on_axis n -> frame n = frame_formula n.
Proof.
  intros H. unfold frame, frame_formula.
  assert (HN := length_pos H). assert (HS := planar_pos H).
  assert (HN2 := length_square n). assert (HS2 := planar_square n).
  rewrite (normalized_off_axis H).
  set (N := length n) in *. set (S := planar_length n) in *.
  set (u3 := Vec3 (vx n / N) (vy n / N) (vz n / N)).
  assert (H3 : dot u3 u3 = 1).
  { transitivity ((vx n * vx n + vy n * vy n + vz n * vz n) / (N * N));
      [unfold u3; reals; field; lra | reals; rewrite <- HN2; field; lra]. }
  set (w := cross u3 base_normal).
  assert (Hw : dot w w = S / N * (S / N)).
  { transitivity ((vx n * vx n + vy n * vy n) / (N * N));
      [unfold w, u3; reals; field; lra | rewrite <- HS2; field; lra]. }
  assert (Hq : 0 < S / N) by (apply Rdiv_lt_0_compat; assumption).
  assert (H1 : normalized w = Vec3 (vy n / S) (- vx n / S) 0).
  { rewrite normalized_pos by (rewrite Hw; nra).
    rewrite Hw, sqrt_of_square by lra.
    apply vec3_eq; unfold w, u3; reals; field; lra. }
  rewrite H1. set (u1 := Vec3 (vy n / S) (- vx n / S) 0).
  assert (H11 : dot u1 u1 = 1).
  { transitivity ((vx n * vx n + vy n * vy n) / (S * S));
      [unfold u1; reals; field; lra | rewrite <- HS2; field; lra]. }
  assert (H31 : dot u3 u1 = 0) by (unfold u3, u1; reals; field; lra).
  rewrite (normalized_of_unit (cross_unit H3 H11 H31)).
  f_equal. apply vec3_eq; unfold u3, u1; reals; try (field; lra).
  transitivity (- (vx n * vx n + vy n * vy n) / (N * S));
    [field; lra | rewrite <- HS2; field; lra].
Qed.

Lemma needs_rotation_flat (n : Vector3 R) : vz n = 0 -> needs_rotation n = true.
Proof.
  intros Hz. unfold needs_rotation. apply fgt_true. reals. rewrite Hz, Rabs_R0.
  apply Rlt_le_trans with 1; [lra |].
  rewrite <- sqrt_1 at 1. apply sqrt_le_1_alt. nra.
Qed.

Lemma rotation_closed_form (center n : Vector3 R) (r s : R) :
  needs_rotation n = true -> ~ on_axis n ->
  rotation_ (Circle_Circle center n r s) = frame_formula n.
Proof.
  intros H Hax. rewrite rotation_general by exact H. apply frame_closed_form, Hax.
Qed.

(** X13: the frame that the constructor builds off the axis, and the
    identity that it keeps, are right-handed: the cross product of the first
    two rows is the third row. *)
Theorem rotation_right_handed (center n : Vector3 R) (r s : R) :
  ~ on_axis n \/ needs_rotation n = false ->
  let m := rotation_ (Circle_Circle center n r s) in
  cross (row0 m) (row1 m) = row2 m.
Proof.
  intros H m. destruct (needs_rotation n) eqn:E.
  - destruct H as [Hax | H]; [| discriminate].
    unfold m. rewrite (rotation_closed_form center r s E Hax).
    assert (HN := length_pos Hax). assert (HS := planar_pos Hax).
    assert (HS2 := planar_square n).
    unfold frame_formula. cbn [row0 row1 row2].
    set (N := length n) in *. set (S := planar_length n) in *.
    apply vec3_eq; reals; try (field; lra).
    transitivity (vz n * (vx n * vx n + vy n * vy n) / (N * (S * S)));
      [field; lra | rewrite <- HS2; field; lra].
  - unfold m. rewrite (rotation_kept center n r s E).
    apply vec3_eq; reals; ring.
Qed.

Lemma rotation_right_handed_witness :
  (~ on_axis e_x \/ needs_rotation e_x = false) /\
  let m := rotation_ (Circle_Circle zero3 e_x 5 2) in
  cross (row0 m) (row1 m) = row2 m.
Proof.
  assert (H : ~ on_axis e_x \/ needs_rotation e_x = false)
    by (left; exact e_x_off_axis).
  split; [exact H | exact (@rotation_right_handed zero3 e_x 5 2 H)].
Defined.

(** X14: the frame that the constructor builds takes the normal to the
    positive z axis: the rotation matrix times the normal is (0, 0, |n|). *)
Theorem rotation_of_normal (center n : Vector3 R) (r s : R) :
  needs_rotation n = true -> ~ on_axis n ->
  mulMV (rotation_ (Circle_Circle center n r s)) n = Vec3 0 0 (norm n).
Proof.
  intros H Hax. rewrite (rotation_closed_form center r s H Hax).
  assert (HN := length_pos Hax). assert (HS := planar_pos Hax).
  assert (HN2 := length_square n). assert (HS2 := planar_square n).
  change (norm n) with (length n).
  unfold frame_formula.
  set (N := length n) in *. set (S := planar_length n) in *.
  apply vec3_eq; reals.
  - field. lra.
  - transitivity (vz n * (vx n * vx n + vy n * vy n) / (N * S) - S * vz n / N);
      [field; lra | rewrite <- HS2; field; lra].
  - transitivity ((vx n * vx n + vy n * vy n + vz n * vz n) / N);
      [field; lra | rewrite <- HN2; field; lra].
Qed.

Lemma rotation_of_normal_witness :
  needs_rotation e_x = true /\ ~ on_axis e_x /\
  mulMV (rotation_ (Circle_Circle zero3 e_x 5 2)) e_x = Vec3 0 0 (norm e_x).
Proof.
  assert (H : needs_rotation e_x = true) by (apply needs_rotation_flat; reflexivity).
  split; [exact H |]. split; [exact e_x_off_axis |].
  exact (@rotation_of_normal zero3 e_x 5 2 H e_x_off_axis).
Defined.

(** *** The plane of the circle *)

Lemma pd_in_plane (center n : Vector3 R) (r s gamma : R) :
  needs_rotation n = true ->
  let c := Circle_Circle center n r s in
  dot (vsub (pd c gamma) (center_ c)) (plane_normal n) = 0.
Proof.
  intros H c. rewrite pd_radial. unfold c at 1.
  destruct (on_axis_dec n) as [Hax | Hax].
  - rewrite rotation_general by exact H.
    destruct (frame_on_axis Hax) as [-> [Hx Hy]].
    unfold plane_normal. reals. rewrite Hx, Hy. ring.
  - rewrite (rotation_closed_form center r s H Hax).
    assert (HN := length_pos Hax). assert (HS := planar_pos Hax).
    unfold frame_formula, plane_normal.
    set (N := length n) in *. set (S := planar_length n) in *.
    reals. field. lra.
Qed.

(** X15: when the constructor builds the frame, every position lies in the
    plane through the center whose normal is (0, -sqrt(nx^2 + ny^2), nz),
    where (nx, ny, nz) is the normal given to the constructor. *)
Theorem pd_plane (center n : Vector3 R) (r s gamma : R) :
  needs_rotation n = true ->
  let c := Circle_Circle center n r s in
  dot (vsub (pd c gamma) (center_ c)) (plane_normal n) = 0.
Proof. apply pd_in_plane. Qed.

Lemma pd_plane_witness :
  needs_rotation e_x = true /\
  let c := Circle_Circle (Vec3 1 2 3) e_x 5 2 in
  dot (vsub (pd c (1 / 4)) (center_ c)) (plane_normal e_x) = 0.
Proof.
  assert (H : needs_rotation e_x = true) by (apply needs_rotation_flat; reflexivity).
  split; [exact H | exact (@pd_plane (Vec3 1 2 3) e_x 5 2 (1 / 4) H)].
Defined.

Lemma length_flat (n : Vector3 R) : vz n = 0 -> length n = planar_length n.
Proof.
  intros Hz. unfold length, planar_length. f_equal. rewrite Hz. ring.
Qed.

(** X16: for a normal in the canonical plane (nz = 0, not null) the position
    has the closed form below with S = sqrt(nx^2 + ny^2); its second
    coefficient is that of the center, so the circle lies in the plane
    y = center.y whatever the direction of the normal. *)
Theorem pd_horizontal_normal (center n : Vector3 R) (r s gamma : R) :
  vz n = 0 -> ~ on_axis n ->
  let X := r * cos (gamma * 2 * PI) in
  let Y := r * sin (gamma * 2 * PI) in
  pd (Circle_Circle center n r s) gamma =
  Vec3 ((vy n * X - vx n * Y) / planar_length n + vx center)
       (vy center)
       ((vx n * X + vy n * Y) / planar_length n + vz center).
Proof.
  intros Hz Hax X Y. unfold pd.
  cbn [radius_ rotation_ center_ Circle_Circle].
  assert (Hrot := rotation_closed_form center r s (needs_rotation_flat n Hz) Hax).
  cbn [rotation_ Circle_Circle] in Hrot. rewrite Hrot.
  assert (HS := planar_pos Hax).
  unfold frame_formula. rewrite (length_flat n Hz), Hz.
  set (S := planar_length n) in *. unfold X, Y.
  apply vec3_eq; reals; field; lra.
Qed.

Lemma pd_horizontal_normal_witness :
  vz e_x = 0 /\ ~ on_axis e_x /\
  pd (Circle_Circle (Vec3 1 2 3) e_x 5 2) (1 / 4) =
  Vec3 ((vy e_x * (5 * cos (1 / 4 * 2 * PI)) - vx e_x * (5 * sin (1 / 4 * 2 * PI)))
          / planar_length e_x + 1)
       2
       ((vx e_x * (5 * cos (1 / 4 * 2 * PI)) + vy e_x * (5 * sin (1 / 4 * 2 * PI)))
          / planar_length e_x + 3).
Proof.
  split; [reflexivity |]. split; [exact e_x_off_axis |].
  exact (@pd_horizontal_normal (Vec3 1 2 3) e_x 5 2 (1 / 4) eq_refl e_x_off_axis).
Defined.

Lemma plane_normal_self (n : Vector3 R) :
  vx n = 0 -> vy n <= 0 -> plane_normal n = n.
Proof.
  intros Hx Hy. unfold plane_normal, planar_length.
  apply vec3_eq; cbn [vx vy vz]; [symmetry; exact Hx | | reflexivity].
  rewrite Hx. replace (0 * 0 + vy n * vy n) with (vy n * vy n) by ring.
  rewrite sqrt_square, Rabs_left1 by exact Hy. ring.
Qed.

(** X17: when the constructor builds the frame from a normal with nx = 0 and
    ny <= 0, every position lies in the plane through the center that is
    orthogonal to the normal. *)
Theorem pd_orthogonal_to_normal (center n : Vector3 R) (r s gamma : R) :
  needs_rotation n = true -> vx n = 0 -> vy n <= 0 ->
  let c := Circle_Circle center n r s in
  dot (vsub (pd c gamma) (center_ c)) (normal_ c) = 0.
Proof.
  intros H Hx Hy c.
  change (normal_ c) with n. rewrite <- (plane_normal_self n Hx Hy) at 1.
  apply pd_in_plane, H.
Qed.

Lemma pd_orthogonal_to_normal_witness :
  let n := Vec3 0 (-1) 0 in
  needs_rotation n = true /\ vx n = 0 /\ vy n <= 0 /\
  let c := Circle_Circle (Vec3 1 2 3) n 5 2 in
  dot (vsub (pd c (1 / 4)) (center_ c)) (normal_ c) = 0.
Proof.
  intros n.
  assert (H : needs_rotation n = true) by (apply needs_rotation_flat; reflexivity).
  assert (Hy : vy n <= 0) by (cbn; lra).
  split; [exact H |]. split; [reflexivity |]. split; [exact Hy |].
  exact (@pd_orthogonal_to_normal (Vec3 1 2 3) n 5 2 (1 / 4) H eq_refl Hy).
Defined.

(** *** The length of the normal *)

Lemma normalized_scaled (k : R) (n : Vector3 R) :
  0 < k -> normalized (vscale k n) = normalized n.
Proof.
  intros Hk.
  assert (Hd : dot (vscale k n) (vscale k n) = k * k * dot n n) by (reals; ring).
  destruct (Rlt_dec 0 (dot n n)) as [Hn | Hn].
  - assert (Hs := sqrt_lt_R0 _ Hn).
    rewrite !normalized_pos;
      [| exact Hn | rewrite Hd; apply Rmult_lt_0_compat; nra].
    rewrite Hd, sqrt_mult, sqrt_of_square by nra.
    apply vec3_eq; reals; field; lra.
  - rewrite (@dot_self_zero n) by lra.
    replace (vscale k zero3) with zero3 by (apply vec3_eq; reals; ring).
    reflexivity.
Qed.

(** X18: the length of the normal does not matter to the frame: a normal and
    a positive multiple of it, both passing the constructor's test, give the
    same rotation matrix. *)
Theorem rotation_scale_free (center n : Vector3 R) (r s k : R) :
  0 < k -> needs_rotation n = true -> needs_rotation (vscale k n) = true ->
  rotation_ (Circle_Circle center (vscale k n) r s) =
  rotation_ (Circle_Circle center n r s).
Proof.
  intros Hk H H'. rewrite !rotation_general by assumption.
  unfold frame. rewrite (normalized_scaled n Hk). reflexivity.
Qed.

Lemma rotation_scale_free_witness :
  0 < 2 /\ needs_rotation e_x = true /\ needs_rotation (vscale 2 e_x) = true /\
  rotation_ (Circle_Circle zero3 (vscale 2 e_x) 5 2) =
  rotation_ (Circle_Circle zero3 e_x 5 2).
Proof.
  assert (Hk : 0 < 2) by lra.
  assert (H : needs_rotation e_x = true) by (apply needs_rotation_flat; reflexivity).
  assert (H' : needs_rotation (vscale 2 e_x) = true)
    by (apply needs_rotation_flat; unfold e_x; reals; ring).
  split; [exact Hk |]. split; [exact H |]. split; [exact H' |].
  exact (@rotation_scale_free zero3 e_x 5 2 2 Hk H H').
Defined.

(** * Further properties of the machine reading *)

Section MachineEdges.
Context {L : Libm double}.
Local Open Scope scalar_scope.

(** X19: [vd] never returns an infinity or a NaN, whatever the circle, the
    progress value and the library functions. *)
Theorem vd_always_finite (c : Circle double) (gamma : double) :
  SFisfinite (vd c gamma) = true.
Proof.
  unfold vd.
  set (v := if fne (norm (d_pd c gamma)) lit_0
            then vehicle_speed_ c / norm (d_pd c gamma) else lit_0).
  cbn [isfinite double_arith].
  destruct (SFisfinite v) eqn:E; cbn [negb]; [exact E | reflexivity].
Qed.

Lemma sub_nan_l (b : double) : S754_nan - b = S754_nan.
Proof. destruct b; reflexivity. Qed.

Lemma dot_nan_z (r v : Vector3 double) : vz v = S754_nan -> dot r v = S754_nan.
Proof.
  intros H. unfold dot. rewrite H, mul_nan_r, add_nan_r. reflexivity.
Qed.

Lemma needs_rotation_nan (n : Vector3 double) :
  vx n = S754_nan \/ vy n = S754_nan \/ vz n = S754_nan ->
  needs_rotation n = false.
Proof.
  intros H. unfold needs_rotation, norm, squaredNorm.
  set (d := vsub (cwiseAbs n) base_normal).
  assert (Hd : vx d = S754_nan \/ vy d = S754_nan \/ vz d = S754_nan).
  { unfold d, vsub, cwiseAbs. cbn [vx vy vz].
    destruct H as [H | [H | H]]; rewrite H;
      [left | right; left | right; right]; apply sub_nan_l. }
  assert (Hn : dot d d = S754_nan)
    by (destruct Hd as [E | [E | E]];
        [apply dot_nan_x | apply dot_nan_y | apply dot_nan_z]; exact E).
  rewrite Hn. reflexivity.
Qed.

(** X20: a normal with a NaN coefficient fails the constructor's test, since
    no comparison with NaN holds, and the rotation matrix stays the
    identity. *)
Theorem rotation_nan_normal (center n : Vector3 double) (radius speed : double) :
  vx n = S754_nan \/ vy n = S754_nan \/ vz n = S754_nan ->
  rotation_ (Circle_Circle center n radius speed) = Identity.
Proof. intros H. apply rotation_kept, needs_rotation_nan, H. Qed.

(** X21: when the vehicle speed is an infinity or a NaN and the norm of the
    first derivative is not a zero, [vd] returns the fallback 0.00000001. *)
Theorem vd_speed_not_finite (c : Circle double) (gamma : double) :
  SFisfinite (vehicle_speed_ c) = false ->
  is_zero (norm (d_pd c gamma)) = false ->
  vd c gamma = lit_0_00000001.
Proof.
  intros Hs Hz. unfold vd. revert Hz.
  generalize (norm (d_pd c gamma)). intros nrm Hz.
  destruct (vehicle_speed_ c) as [sv | sv | | sv mv ev];
    try discriminate Hs;
    destruct nrm as [sn | [|] | | [|] mn en]; try discriminate Hz; reflexivity.
Qed.
End MachineEdges.

Lemma rotation_nan_normal_witness :
  let n := Vec3 S754_nan pos_zero d_1 in
  (vx n = S754_nan \/ vy n = S754_nan \/ vz n = S754_nan) /\
  rotation_ (Circle_Circle origin n d_1 d_2) = Identity.
Proof.
  intros n.
  assert (H : vx n = S754_nan \/ vy n = S754_nan \/ vz n = S754_nan)
    by (left; reflexivity).
  split; [exact H | exact (@rotation_nan_normal origin n d_1 d_2 H)].
Defined.

Lemma vd_speed_not_finite_witness :
  let c := Circle_Circle origin z_up d_1 pos_inf in
  SFisfinite (vehicle_speed_ c) = false /\
  is_zero (norm (@d_pd _ _ libm_annex_f c pos_zero)) = false /\
  @vd _ _ libm_annex_f c pos_zero = lit_0_00000001.
Proof.
  intros c.
  assert (Hz : is_zero (norm (@d_pd _ _ libm_annex_f c pos_zero)) = false)
    by (vm_compute; reflexivity).
  split; [reflexivity |]. split; [exact Hz |].
  exact (@vd_speed_not_finite libm_annex_f c pos_zero eq_refl Hz).
Defined.

(** * Degenerate circles in the ideal reading *)

(** X22: a radius of zero is accepted; the position is then the center at
    every progress value and the three derivatives are null. *)
Theorem zero_radius_point (c : Circle R) (gamma : R) :
  radius_ c = 0 ->
  pd c gamma = center_ c /\ d_pd c gamma = zero3 /\
  d2_pd c gamma = zero3 /\ d3_pd c gamma = zero3.
Proof.
  intros H. repeat split; apply vec3_eq; reals; rewrite H; ring.
Qed.

Lemma zero_radius_point_witness :
  let c := Circle_Circle (Vec3 1 2 3) e_x 0 2 in
  radius_ c = 0 /\ pd c (1 / 4) = center_ c.
Proof.
  intros c. split; [reflexivity |].
  exact (proj1 (@zero_radius_point c (1 / 4) eq_refl)).
Defined.

Lemma rotation_on_axis (center n : Vector3 R) (r s : R) :
  needs_rotation n = true -> on_axis n ->
  exists u3, on_axis u3 /\
    rotation_ (Circle_Circle center n r s) = Mat3 zero3 zero3 u3.
Proof.
  intros H Hax. exists (normalized n).
  rewrite rotation_general by exact H.
  destruct (frame_on_axis Hax) as [-> Hu]. split; [exact Hu | reflexivity].
Qed.

(** X23: a normal on the axis of (0,0,1) that passes the constructor's test,
    such as (0,0,2) or (0,0,0), collapses the circle: the position is the
    center at every progress value, the first derivative is null and [vd]
    is 0. *)
Theorem on_axis_collapse (center n : Vector3 R) (r s gamma : R) :
  needs_rotation n = true -> on_axis n ->
  let c := Circle_Circle center n r s in
  pd c gamma = center /\ d_pd c gamma = zero3 /\ vd c gamma = 0.
Proof.
  intros H Hax c.
  destruct (rotation_on_axis center r s H Hax) as (u3 & [Hx Hy] & Hrot).
  fold c in Hrot.
  assert (Hd : d_pd c gamma = zero3).
  { unfold d_pd. rewrite Hrot. apply vec3_eq; reals; rewrite ?Hx, ?Hy; ring. }
  split; [| split; [exact Hd |]].
  - unfold pd. rewrite Hrot. subst c. cbn [center_ radius_ Circle_Circle].
    apply vec3_eq; reals; rewrite ?Hx, ?Hy; ring.
  - unfold vd. rewrite Hd.
    replace (norm zero3) with 0
      by (unfold norm, squaredNorm; reals;
          replace (0 * 0 + 0 * 0 + 0 * 0) with 0 by ring;
          symmetry; apply sqrt_0).
    cbn [fne isfinite lit_0 R_arith negb].
    destruct (Req_dec_T 0 0) as [E | E]; [reflexivity | contradiction].
Qed.

Lemma twice_e_z_needs_rotation : needs_rotation (Vec3 0 0 2) = true.
Proof.
  unfold needs_rotation. apply fgt_true. reals.
  rewrite Rabs_R0, (Rabs_pos_eq 2) by lra.
  replace ((0 - 0) * (0 - 0) + (0 - 0) * (0 - 0) + (2 - 1) * (2 - 1)) with 1 by ring.
  rewrite sqrt_1. lra.
Qed.

Lemma on_axis_collapse_witness :
  let n := Vec3 0 0 2 in
  needs_rotation n = true /\ on_axis n /\
  pd (Circle_Circle (Vec3 1 2 3) n 5 2) (1 / 4) = Vec3 1 2 3.
Proof.
  intros n.
  assert (Hax : on_axis n) by (split; reflexivity).
  split; [exact twice_e_z_needs_rotation |]. split; [exact Hax |].
  exact (proj1 (@on_axis_collapse (Vec3 1 2 3) n 5 2 (1 / 4)
                  twice_e_z_needs_rotation Hax)).
Defined.

(** X24: for a normal off the axis that passes the constructor's test, the
    rotation matrix has the rows (ny, -nx, 0) / S,
    (nx nz, ny nz, -S^2) / (N S) and (nx, ny, nz) / N, where N is the length
    of the normal and S the length of (nx, ny). *)
Theorem rotation_formula (center n : Vector3 R) (r s : R) :
  needs_rotation n = true -> ~ on_axis n ->
  rotation_ (Circle_Circle center n r s) = frame_formula n.
Proof. apply rotation_closed_form. Qed.

Lemma rotation_formula_witness :
  needs_rotation e_x = true /\ ~ on_axis e_x /\
  rotation_ (Circle_Circle zero3 e_x 5 2) = frame_formula e_x.
Proof.
  assert (H : needs_rotation e_x = true) by (apply needs_rotation_flat; reflexivity).
  split; [exact H |]. split; [exact e_x_off_axis |].
  exact (@rotation_formula zero3 e_x 5 2 H e_x_off_axis).
Defined.

(** * The geometric statements on the machine reading *)

Import Rounded.

(** The tabulated arguments are the angles that the evaluators compute at
    the progress values 0 + 1 and 1/8. *)
Example d_2pi_angle : ((pos_zero + lit_1) * lit_2 * M_PI)%S = d_2pi.
Proof. vm_compute. reflexivity. Qed.

Example d_pi_4_angle : (d_eighth * lit_2 * M_PI)%S = d_pi_4.
Proof. vm_compute. reflexivity. Qed.

(** C3, as stated, fails twice.  In exact arithmetic, for the radius -1 the
    distance is 1.  On [double], with the center (2^60, 0, 0), the normal
    (0,0,1), the radius 1 and the progress 0, the sum 2^60 + 1 rounds to
    2^60: the position is the center and the distance is 0. *)
Lemma pd_distance_not_radius :
  (let c := Circle_Circle zero3 e_z (-1) 1 in
   orthonormal (rotation_ c) /\
   norm (vsub (pd c 0) (center_ c)) <> radius_ c) /\
  (let c := Circle_Circle far_center z_up d_1 d_2 in
   rotation_ c = Identity /\
   norm (vsub (@pd _ _ libm_rounded c pos_zero) (center_ c)) = pos_zero /\
   SFeqb (norm (vsub (@pd _ _ libm_rounded c pos_zero) (center_ c)))
         (radius_ c) = false).
Proof.
  split; [exact pd_negative_radius_distance |].
  vm_compute. repeat split; reflexivity.
Qed.

(** C5, as stated, fails on [double]: with the radius 5, the normal (0,0,1)
    and the center (0,0,0), the position at the progress 0 is (5, 0, 0) and
    at 0 + 1 its second coefficient is 5 sin (2 * M_PI), which is not zero. *)
Lemma pd_not_periodic_double :
  let c := Circle_Circle origin z_up d_5 d_2 in
  vy (@pd _ _ libm_rounded c pos_zero) = pos_zero /\
  is_zero (vy (@pd _ _ libm_rounded c (pos_zero + lit_1)%S)) = false /\
  SFeqb (vy (@pd _ _ libm_rounded c pos_zero))
        (vy (@pd _ _ libm_rounded c (pos_zero + lit_1)%S)) = false.
Proof. vm_compute. repeat split; reflexivity. Qed.

(** C6, as stated, fails on [double]: with the center (2^60, 0, 0), the
    normal (0,0,1), the radius 1 and the progress 0, the position is the
    center, so every multiple of the radial vector is null or NaN, while the
    second derivative is (-(2 pi)^2, -0, 0). *)
Lemma d2_pd_not_multiple_double :
  let c := Circle_Circle far_center z_up d_1 d_2 in
  is_zero (vx (@d2_pd _ _ libm_rounded c pos_zero)) = false /\
  ~ exists k : double,
      @d2_pd _ _ libm_rounded c pos_zero =
      vscale k (vsub (@pd _ _ libm_rounded c pos_zero) (center_ c)).
Proof.
  intros c.
  assert (Hr : vsub (@pd _ _ libm_rounded c pos_zero) (center_ c) = origin)
    by (vm_compute; reflexivity).
  assert (Hd : is_zero (vx (@d2_pd _ _ libm_rounded c pos_zero)) = false)
    by (vm_compute; reflexivity).
  assert (Hv : vx (@d2_pd _ _ libm_rounded c pos_zero) =
               S754_finite true 5556093337880030 (-47))
    by (vm_compute; reflexivity).
  split; [exact Hd |].
  intros [k Hk]. rewrite Hr in Hk. rewrite Hk in Hv.
  destruct k as [[|] | [|] | | [|] m e]; discriminate Hv.
Qed.

(** C7, as stated, fails on [double].  With the center (2^60, 0, 0), the
    normal (0,0,1), the radius 1 and the progress 1/8, the radial vector is
    (0, sin, 0) and its product with the first derivative is above 1.  With
    the center (0,0,0), the normal (1,1,0), the radius 1 and the progress 0,
    the rounded frame is not exactly orthogonal and the product is not
    zero. *)
Lemma d_pd_not_tangent_double :
  (let c := Circle_Circle far_center z_up d_1 d_2 in
   fgt (dot (@d_pd _ _ libm_rounded c d_eighth)
            (vsub (@pd _ _ libm_rounded c d_eighth) (center_ c))) lit_1 = true) /\
  (let c := Circle_Circle origin diagonal d_1 d_2 in
   is_zero (dot (@d_pd _ _ libm_rounded c pos_zero)
                (vsub (@pd _ _ libm_rounded c pos_zero) (center_ c))) = false).
Proof. vm_compute. split; reflexivity. Qed.

(** C8, as stated, fails in three cases.  In exact arithmetic, for the
    radius -1 the norm is not 2 pi (-1), and for a normal of length zero the
    first derivative is null.  On [double], with the normal (0,0,1), the
    radius 2^-665 and the progress 0, the square of 2 pi r underflows: the
    norm is 0 while 2 pi r is not. *)
Lemma d_pd_norm_not_constant :
  (norm (d_pd (Circle_Circle zero3 e_z (-1) 1) 0) <> 2 * PI * (-1) /\
   norm (d_pd (Circle_Circle zero3 zero3 1 1) 0) <> 2 * PI * 1) /\
  (let c := Circle_Circle origin z_up d_tiny d_2 in
   rotation_ c = Identity /\
   norm (@d_pd _ _ libm_rounded c pos_zero) = pos_zero /\
   is_zero (lit_2 * M_PI * radius_ c)%S = false).
Proof.
  split; [exact d_pd_norm_not_2_pi_r |].
  vm_compute. repeat split; reflexivity.
Qed.

(** C9, as stated, fails on [double]: the third derivative is not
    orthogonal to the second.  With the center (0,0,0), the normal (0,0,1),
    the radius 5 and the progress 1/8 the product is -2^-36; with the normal
    (1,1,0), the radius 1 and the progress 0 it is not zero either. *)
Lemma d3_pd_not_orthogonal_double :
  (let c := Circle_Circle origin z_up d_5 d_2 in
   dot (@d3_pd _ _ libm_rounded c d_eighth) (@d2_pd _ _ libm_rounded c d_eighth)
   = S754_finite true 4503599627370496 (-88)) /\
  (let c := Circle_Circle origin diagonal d_1 d_2 in
   is_zero (dot (@d3_pd _ _ libm_rounded c pos_zero)
                (@d2_pd _ _ libm_rounded c pos_zero)) = false).
Proof. vm_compute. split; reflexivity. Qed.
